(** * Data_Forge: hierarchical compression engine

    A shallow embedding of the chunker ([chunking/enhanced_chunker.py]),
    the summarizer ([summarizer/enhanced_ai_summarizer.py]) and the
    aggregator and report builder ([hierarchical_compressor.py]), followed
    by the properties of the specification that were checked against them.

    Modelling conventions.
    - A Python [str] is a list of characters ([list ascii]); the character
      classes ([\s], [\w], [\d], [lower], [isupper]) are the ASCII ones, so
      the model is exact on 7-bit text.
    - A Python [int] is a [Z]; [len] results are [nat] and are injected
      into [Z] where the source does arithmetic on them.
    - A Python [float] is an exact rational ([Q]): rounding is idealised
      away, comparisons and [int()] truncation are kept.
    - An exception is an explicit [Raise] in the [result] type.
    - [SummaryResult] objects live in a store (a list indexed by location),
      because the aggregator keeps aliases to them and assigns to a field.
    - [print] calls, [processing_time] and wall-clock dates are left out. *)

From Stdlib Require Import ZArith QArith Ascii String List Bool Lia.
From Stdlib Require Import Permutation.
From stdpp Require Import base option list gmap strings pretty.

Local Open Scope Z_scope.
Local Open Scope list_scope.

(* ===================================================================== *)
(** * Part I: definitions *)
(* ===================================================================== *)

(** ** Python built-ins on strings and numbers *)

Module Py.

Definition str := list ascii.

(** A string literal. *)
Definition s (x : string) : str := list_ascii_of_string x.

Definition code (c : ascii) : N := N_of_ascii c.

Definition NL : ascii := ascii_of_N 10.

(** [str.isspace] on one character: the Unicode white space below 256. *)
Definition isspace (c : ascii) : bool :=
  let n := code c in
  (((9 <=? n) && (n <=? 13)) || ((28 <=? n) && (n <=? 32))
   || (n =? 133) || (n =? 160))%N.

Definition isdigit (c : ascii) : bool :=
  let n := code c in ((48 <=? n) && (n <=? 57))%N.

Definition isupper_chr (c : ascii) : bool :=
  let n := code c in ((65 <=? n) && (n <=? 90))%N.

Definition islower_chr (c : ascii) : bool :=
  let n := code c in ((97 <=? n) && (n <=? 122))%N.

(** The class [\w]: letters, digits and the underscore. *)
Definition isword (c : ascii) : bool :=
  isdigit c || isupper_chr c || islower_chr c || (code c =? 95)%N.

Definition lower_chr (c : ascii) : ascii :=
  if isupper_chr c then ascii_of_N (code c + 32) else c.

Definition upper_chr (c : ascii) : ascii :=
  if islower_chr c then ascii_of_N (code c - 32) else c.

(** [str.lower()] *)
Definition lower (t : str) : str := map lower_chr t.

(** [str.isupper()]: some cased character, and no lower-case one. *)
Definition isupper (t : str) : bool :=
  existsb isupper_chr t && negb (existsb islower_chr t).

Definition chr_eqb (a b : ascii) : bool := Ascii.eqb a b.

Fixpoint str_eqb (a b : str) : bool :=
  match a, b with
  | [], [] => true
  | x :: a', y :: b' => chr_eqb x y && str_eqb a' b'
  | _, _ => false
  end.

(** [t.startswith(p)] *)
Fixpoint startswith (p t : str) : bool :=
  match p, t with
  | [], _ => true
  | x :: p', y :: t' => chr_eqb x y && startswith p' t'
  | _ :: _, [] => false
  end.

(** [t.endswith(p)] *)
Definition endswith (p t : str) : bool := startswith (rev p) (rev t).

(** [t.find(sub)] from offset 0: the first index where [sub] starts. *)
Fixpoint find_from (sub t : str) (i : nat) : option nat :=
  if startswith sub t then Some i
  else match t with
       | [] => None
       | _ :: t' => find_from sub t' (S i)
       end.

(** [t.find(sub, start)]: a negative [start] counts from the end, and the
    answer is [-1] when [sub] does not occur from there on. *)
Definition find (sub t : str) (start : Z) : Z :=
  let n := Z.of_nat (length t) in
  let i := if start <? 0 then Z.max 0 (n + start) else start in
  if n <? i then -1
  else match find_from sub (drop (Z.to_nat i) t) (Z.to_nat i) with
       | Some k => Z.of_nat k
       | None => -1
       end.

(** [sub in t] *)
Definition contains (sub t : str) : bool :=
  match find_from sub t 0 with Some _ => true | None => false end.

(** [t.lstrip()], [t.rstrip()], [t.strip()] *)
Fixpoint lstrip (t : str) : str :=
  match t with
  | c :: t' => if isspace c then lstrip t' else t
  | [] => []
  end.

Definition rstrip (t : str) : str := rev (lstrip (rev t)).

Definition strip (t : str) : str := rstrip (lstrip t).

(** [t.split()]: the maximal runs of characters that are not white space. *)
Fixpoint split (t : str) : list str :=
  match t with
  | [] => []
  | c :: t' =>
      if isspace c then split t'
      else match t' with
           | [] => [[c]]
           | c' :: _ =>
               if isspace c' then [c] :: split t'
               else match split t' with
                    | w :: ws => (c :: w) :: ws
                    | [] => [[c]]
                    end
           end
  end.

(** [len(t.split())] *)
Definition word_count (t : str) : nat := length (split t).

(** [t.split(sep)] for a one-character separator: empty pieces are kept. *)
Fixpoint split_on (sep : ascii) (t : str) : list str :=
  match t with
  | [] => [[]]
  | c :: t' =>
      if chr_eqb c sep then [] :: split_on sep t'
      else match split_on sep t' with
           | w :: ws => (c :: w) :: ws
           | [] => [[c]]
           end
  end.

(** [sep.join(parts)] *)
Fixpoint join (sep : str) (parts : list str) : str :=
  match parts with
  | [] => []
  | [p] => p
  | p :: ps => p ++ sep ++ join sep ps
  end.

(** [l[:n]] for any integer [n]: a negative bound counts from the end. *)
Definition slice_to {A} (l : list A) (n : Z) : list A :=
  if n <? 0 then take (Z.to_nat (Z.of_nat (length l) + n)) l
  else take (Z.to_nat n) l.

(** [l[n:]] for any integer [n]. *)
Definition slice_from {A} (l : list A) (n : Z) : list A :=
  if n <? 0 then drop (Z.to_nat (Z.of_nat (length l) + n)) l
  else drop (Z.to_nat n) l.

(** [int(x)] on a float: truncation towards zero. *)
Definition int (x : Q) : Z := Z.quot (Qnum x) (Zpos (Qden x)).

(** [float(n)] *)
Definition float (n : Z) : Q := inject_Z n.

(** [max(a, b)] and [min(a, b)]: the first argument wins ties. *)
Definition max (a b : Q) : Q := if Qlt_le_dec a b then b else a.
Definition min (a b : Q) : Q := if Qlt_le_dec b a then b else a.

Definition Qleb (a b : Q) : bool := Qle_bool a b.
Definition Qltb (a b : Q) : bool := negb (Qle_bool b a).

(** Exceptions the modelled code can raise. *)
Inductive exn := ZeroDivisionError | IndexError | UnboundLocalError.

Inductive result (A : Type) :=
| Ok (a : A)
| Raise (e : exn).
Arguments Ok {A} a.
Arguments Raise {A} e.

Definition bind {A B} (m : result A) (f : A -> result B) : result B :=
  match m with
  | Ok a => f a
  | Raise e => Raise e
  end.

(** [a / b] on two ints or floats: true division. *)
Definition div (a b : Q) : result Q :=
  if Qeq_bool b 0 then Raise ZeroDivisionError else Ok (a / b)%Q.

(** [l[0]] *)
Definition first {A} (l : list A) : result A :=
  match l with
  | x :: _ => Ok x
  | [] => Raise IndexError
  end.

(** A stable sort by an integer key, ascending ([list.sort(key=...)]). *)
Fixpoint insert_asc {A} (key : A -> Z) (x : A) (l : list A) : list A :=
  match l with
  | [] => [x]
  | y :: l' => if key x <? key y then x :: l else y :: insert_asc key x l'
  end.

Definition sort_asc {A} (key : A -> Z) (l : list A) : list A :=
  fold_left (fun acc x => insert_asc key x acc) l [].

(** The same with [reverse=True]: descending, equal keys keep their order. *)
Fixpoint insert_desc {A} (key : A -> Z) (x : A) (l : list A) : list A :=
  match l with
  | [] => [x]
  | y :: l' => if key y <? key x then x :: l else y :: insert_desc key x l'
  end.

Definition sort_desc {A} (key : A -> Z) (l : list A) : list A :=
  fold_left (fun acc x => insert_desc key x acc) l [].

End Py.

Notation "x <- m ;; k" := (Py.bind m (fun x => k))
  (at level 100, m at next level, right associativity).

(* ===================================================================== *)
(** ** The fragment of Python's [re] the program uses *)

Module Re.
Import Py.

(** Regular expressions.  Repetition is greedy and alternation is ordered,
    as in a backtracking matcher. *)
Inductive re :=
| Eps
| Chr (c : ascii)                (* a literal character *)
| Cls (p : ascii -> bool)        (* a character class *)
| Seq (r1 r2 : re)
| Alt (r1 r2 : re)
| Star (r : re)
| Bol                            (* ^ *)
| Eol                            (* $ *)
| WordB                          (* \b *)
| Behind (p : ascii -> bool)     (* (?<=[...]) *)
| Ahead (r : re)                 (* (?=...) *)
| Grp (r : re).                  (* the capturing group 1 *)

(** A position in the subject: what is behind (reversed), what is ahead,
    and what group 1 captured so far. *)
Record pos := Pos { before : str; ahead : str; grp1 : option str }.

Definition start_pos (t : str) : pos := Pos [] t None.

Definition consumed (p q : pos) : str :=
  take (length (ahead p) - length (ahead q))%nat (ahead p).

(** One character tested by [f], with or without [re.IGNORECASE]. *)
Definition step (ic : bool) (f : ascii -> bool) (p : pos) : list pos :=
  match ahead p with
  | c :: t =>
      if f c || (ic && (f (lower_chr c) || f (upper_chr c)))
      then [Pos (c :: before p) t (grp1 p)]
      else []
  | [] => []
  end.

Definition at_word (t : str) : bool :=
  match t with
  | c :: _ => isword c
  | [] => false
  end.

(** The iterations of a starred expression, longest first. *)
Fixpoint star_run (f : pos -> list pos) (fuel : nat) (p : pos) : list pos :=
  match fuel with
  | O => [p]
  | S fuel' =>
      flat_map (fun q =>
                  if (length (ahead q) <? length (ahead p))%nat
                  then star_run f fuel' q else [])
               (f p)
      ++ [p]
  end.

(** Every way [r] matches at [p], in the order a backtracking matcher
    tries them: the head of the list is the match Python reports. *)
Fixpoint run (ic : bool) (r : re) (p : pos) : list pos :=
  match r with
  | Eps => [p]
  | Chr c => step ic (chr_eqb c) p
  | Cls f => step ic f p
  | Seq r1 r2 => flat_map (run ic r2) (run ic r1 p)
  | Alt r1 r2 => run ic r1 p ++ run ic r2 p
  | Star r1 => star_run (run ic r1) (length (ahead p)) p
  | Bol => match before p with [] => [p] | _ => [] end
  | Eol =>
      match ahead p with
      | [] => [p]
      | [c] => if chr_eqb c NL then [p] else []
      | _ => []
      end
  | WordB => if xorb (at_word (before p)) (at_word (ahead p)) then [p] else []
  | Behind f =>
      match before p with
      | c :: _ => if f c then [p] else []
      | [] => []
      end
  | Ahead r1 => match run ic r1 p with [] => [] | _ => [p] end
  | Grp r1 =>
      map (fun q => Pos (before q) (ahead q) (Some (consumed p q)))
          (run ic r1 p)
  end.

(** [pattern.match(t)] at a given position. *)
Definition match_at (ic : bool) (r : re) (p : pos) : option pos :=
  head (run ic r p).

(** [pattern.search(t)]: the leftmost match, as its two ends. *)
Fixpoint search_at (ic : bool) (r : re) (bef t : str) : option (pos * pos) :=
  match match_at ic r (Pos bef t None) with
  | Some q => Some (Pos bef t None, q)
  | None =>
      match t with
      | [] => None
      | c :: t' => search_at ic r (c :: bef) t'
      end
  end.

Definition search (ic : bool) (r : re) (t : str) : option (pos * pos) :=
  search_at ic r [] t.

(** [pattern.search(t) is not None] *)
Definition found (ic : bool) (r : re) (t : str) : bool :=
  match search ic r t with Some _ => true | None => false end.

(** [pattern.findall(t)] for a pattern without groups that matches no
    empty string: the successive leftmost matches. *)
Fixpoint findall_at (fuel : nat) (ic : bool) (r : re) (bef t : str)
  : list str :=
  match fuel with
  | O => []
  | S fuel' =>
      let p := Pos bef t None in
      match match_at ic r p, t with
      | Some q, c :: t' =>
          match consumed p q with
          | [] => [] :: findall_at fuel' ic r (c :: bef) t'
          | m => m :: findall_at fuel' ic r (before q) (ahead q)
          end
      | Some q, [] => [consumed p q]
      | None, c :: t' => findall_at fuel' ic r (c :: bef) t'
      | None, [] => []
      end
  end.

Definition findall (ic : bool) (r : re) (t : str) : list str :=
  findall_at (S (length t)) ic r [] t.

(** [re.split(pattern, t)] for such a pattern: the pieces between the
    successive leftmost matches; [cur] is the piece being read, reversed. *)
Fixpoint split_at (fuel : nat) (ic : bool) (r : re) (bef t cur : str)
  : list str :=
  match fuel with
  | O => [rev cur]
  | S fuel' =>
      let p := Pos bef t None in
      match match_at ic r p, t with
      | Some q, c :: t' =>
          match consumed p q with
          | [] => split_at fuel' ic r (c :: bef) t' (c :: cur)
          | _ => rev cur :: split_at fuel' ic r (before q) (ahead q) []
          end
      | _, c :: t' => split_at fuel' ic r (c :: bef) t' (c :: cur)
      | _, [] => [rev cur]
      end
  end.

Definition split (ic : bool) (r : re) (t : str) : list str :=
  split_at (S (length t)) ic r [] t [].

(** Notation helpers for writing patterns. *)
Fixpoint lit (t : str) : re :=
  match t with
  | [] => Eps
  | [c] => Chr c
  | c :: t' => Seq (Chr c) (lit t')
  end.

Definition word (x : string) : re := lit (s x).

Fixpoint seq (l : list re) : re :=
  match l with
  | [] => Eps
  | [r] => r
  | r :: l' => Seq r (seq l')
  end.

Fixpoint alt (l : list re) : re :=
  match l with
  | [] => Cls (fun _ => false)
  | [r] => r
  | r :: l' => Alt r (alt l')
  end.

Definition plus (r : re) : re := Seq r (Star r).
Definition opt (r : re) : re := Alt r Eps.

(** [r{lo,hi}] *)
Fixpoint upto (n : nat) (r : re) : re :=
  match n with
  | O => Eps
  | S n' => opt (Seq r (upto n' r))
  end.

Fixpoint times (n : nat) (r : re) : re :=
  match n with
  | O => Eps
  | S n' => Seq r (times n' r)
  end.

Definition between (lo hi : nat) (r : re) : re :=
  Seq (times lo r) (upto (hi - lo) r).

Definition one_of (x : string) : ascii -> bool :=
  fun c => existsb (chr_eqb c) (s x).

Definition dot : re := Cls (fun c => negb (chr_eqb c NL)).
Definition digit : re := Cls isdigit.
Definition space : re := Cls isspace.
Definition wordchr : re := Cls isword.
Definition backslash : re := Chr (ascii_of_N 92).

End Re.

(* ===================================================================== *)
(** ** chunking/enhanced_chunker.py *)

Module Chunker.
Import Py Re.

Inductive ChunkType := STANDARD | CRITICAL | HEADER | REFERENCE.

Definition ChunkType_eqb (a b : ChunkType) : bool :=
  match a, b with
  | STANDARD, STANDARD | CRITICAL, CRITICAL
  | HEADER, HEADER | REFERENCE, REFERENCE => true
  | _, _ => false
  end.

Record Chunk := mkChunk {
  chunk_id : Z;
  text : str;
  page_number : Z;
  word_count : Z;
  chunk_type : ChunkType;
  section_id : option str;
  parent_chunk_id : option Z;
  contains_numbers : bool;
  contains_dates : bool;
  contains_exceptions : bool;
  contains_risks : bool;
  contains_contradictions : bool;
  header_level : Z;
  source_range : Z * Z
}.

Definition set_chunk_type (c : Chunk) (t : ChunkType) : Chunk :=
  mkChunk (chunk_id c) (text c) (page_number c) (word_count c) t
    (section_id c) (parent_chunk_id c) (contains_numbers c)
    (contains_dates c) (contains_exceptions c) (contains_risks c)
    (contains_contradictions c) (header_level c) (source_range c).

Definition set_parent_chunk_id (c : Chunk) (p : option Z) : Chunk :=
  mkChunk (chunk_id c) (text c) (page_number c) (word_count c) (chunk_type c)
    (section_id c) p (contains_numbers c)
    (contains_dates c) (contains_exceptions c) (contains_risks c)
    (contains_contradictions c) (header_level c) (source_range c).

(** The pages of [document_data]. *)
Record Page := mkPage { page_page_number : Z; page_text : str }.

(** [EnhancedSmartChunker.__init__] *)
Record Config := mkConfig {
  min_words : Z;
  max_words : Z;
  overlap_words : Z
}.

(** [self.patterns] *)
Definition months : re :=
  alt [word "Jan"; word "Feb"; word "Mar"; word "Apr"; word "May";
       word "Jun"; word "Jul"; word "Aug"; word "Sep"; word "Oct";
       word "Nov"; word "Dec"].

Definition pat_number : bool * re :=
  (false, seq [WordB; plus digit; opt (Seq (Chr ".") (plus digit)); WordB]).

Definition pat_date : bool * re :=
  (true, seq [WordB; months; Star (Cls islower_chr); plus space;
              between 1 2 digit; opt (Chr ","); Star space;
              times 4 digit; WordB]).

Definition pat_exception : bool * re :=
  (true, alt [Seq WordB (word "EXCEPTION"); word "EXCEPTION:";
              word "unless"; word "only if"; Seq (word "however") WordB]).

Definition pat_risk : bool * re :=
  (true, alt [Seq WordB (word "RISK"); word "WARNING"; word "ALERT";
              word "CAUTION"; Seq (word "DANGER") WordB]).

Definition pat_contradiction : bool * re :=
  (true, alt [Seq WordB (word "CONTRADICTION"); word "CONFLICT";
              Seq (word "vs") (Chr "."); Seq (word "versus") WordB]).

Definition pat_section_header : bool * re :=
  (true, seq [Bol; alt [word "SECTION"; word "APPENDIX"; word "CHAPTER"];
              plus space; Grp (plus digit)]).

Definition pat_subsection_header : bool * re :=
  (false, seq [Bol; Grp (seq [plus digit; Chr "."; plus digit]); plus space]).

Definition pat_search (p : bool * re) (t : str) : bool :=
  found (fst p) (snd p) t.

(** [pattern.match(t)], giving [match.group(1)]. *)
Definition pat_match_group (p : bool * re) (t : str) : option str :=
  match match_at (fst p) (snd p) (start_pos t) with
  | Some q => grp1 q
  | None => None
  end.

(** [_split_into_paragraphs] *)
Definition paragraph_break : re :=
  Alt (seq [Chr NL; Star space; Chr NL])
      (Seq (Chr NL)
           (Ahead (alt [word "SECTION"; word "APPENDIX"; word "CHAPTER";
                        seq [plus digit; Chr "."; plus digit]]))).

Definition _split_into_paragraphs (t : str) : list str :=
  map strip
    (List.filter (fun p => negb (str_eqb (strip p) [])
                      && (10 <? length (strip p))%nat)
            (Re.split false paragraph_break t)).

(** [_classify_header]: the header level and the captured section id. *)
Definition _classify_header (t : str) : Z * option str :=
  match pat_match_group pat_section_header t with
  | Some g => (1, Some g)
  | None =>
      match pat_match_group pat_subsection_header t with
      | Some g => (2, Some g)
      | None =>
          if isupper t && (10 <? length t)%nat && (length t <? 150)%nat
             && (Py.word_count t <? 15)%nat
          then (2, None)
          else if startswith (s "# ") t && (length t <? 150)%nat
          then (2, None)
          else if startswith (s "## ") t && (length t <? 150)%nat
          then (3, None)
          else (0, None)
      end
  end.

(** [_is_critical_content] *)
Definition _is_critical_content (t : str) : bool :=
  let has_exception := pat_search pat_exception t in
  let has_risk := pat_search pat_risk t in
  let has_contradiction := pat_search pat_contradiction t in
  let is_substantial := (15 <? Py.word_count t)%nat in
  let has_specifics :=
    found false (plus digit) t
    || contains (s "unless") (lower t)
    || contains (s "only if") (lower t)
    || contains (s "must") (lower t)
    || contains (s "required") (lower t)
    || contains (s "mandatory") (lower t) in
  (has_exception || has_risk || has_contradiction)
  && is_substantial && has_specifics.

(** [_create_chunk] *)
Definition _create_chunk (chunk_id : Z) (t : str) (page_num : Z)
    (section_id : option str) (char_start : Z) (header_level : Z) : Chunk :=
  let word_count := Z.of_nat (Py.word_count t) in
  let chunk_type :=
    if 0 <? header_level then HEADER
    else if _is_critical_content t && (20 <? word_count) then CRITICAL
    else STANDARD in
  mkChunk chunk_id (strip t) page_num word_count chunk_type section_id None
    (pat_search pat_number t) (pat_search pat_date t)
    (pat_search pat_exception t) (pat_search pat_risk t)
    (pat_search pat_contradiction t) header_level
    (char_start, char_start + Z.of_nat (length t)).

(** [_get_overlap_text] *)
Definition _get_overlap_text (cfg : Config) (t : str) : str :=
  let words := Py.split t in
  if Z.of_nat (length words) <=? overlap_words cfg then []
  else join (s " ") (slice_from words (- overlap_words cfg)).

(** The local variables of [chunk_document] that outlive an iteration. *)
Record state := mkState {
  chunks : list Chunk;
  next_id : Z;
  current_section : option str;
  global_char_offset : Z;
  buffer : str;
  buffer_start : Z;
  current_header_level : Z;
  page_num : Z
}.

Definition nonempty (t : str) : bool := negb (str_eqb t []).

(** [chunks.append(self._create_chunk(chunk_id, buffer, ...)); chunk_id += 1] *)
Definition emit (st : state) (level : Z) (as_header : bool) : state :=
  let c := _create_chunk (next_id st) (buffer st) (page_num st)
             (current_section st) (buffer_start st) level in
  let c := if as_header then set_chunk_type c HEADER else c in
  mkState (chunks st ++ [c]) (next_id st + 1) (current_section st)
    (global_char_offset st) (buffer st) (buffer_start st)
    (current_header_level st) (page_num st).

Definition set_buffer (st : state) (b : str) (b_start : Z) : state :=
  mkState (chunks st) (next_id st) (current_section st)
    (global_char_offset st) b b_start (current_header_level st) (page_num st).

Definition set_section (st : state) (sec : option str) : state :=
  mkState (chunks st) (next_id st) sec (global_char_offset st) (buffer st)
    (buffer_start st) (current_header_level st) (page_num st).

Definition set_level (st : state) (level : Z) : state :=
  mkState (chunks st) (next_id st) (current_section st)
    (global_char_offset st) (buffer st) (buffer_start st) level (page_num st).

(** The body of [for para in paragraphs]. *)
Definition para_step (cfg : Config) (page_txt : str) (st : state)
    (para : str) : state :=
  let para := strip para in
  if negb (nonempty para) then st
  else
    let gco := global_char_offset st in
    let para_start :=
      Py.find para page_txt
        (if nonempty (buffer st) then buffer_start st - gco else 0) + gco in
    let '(header_level, section_id) := _classify_header para in
    let st :=
      match section_id with
      | Some sid =>
          if (0 <? header_level) && nonempty sid
          then set_section st (Some sid) else st
      | None => st
      end in
    if 0 <? header_level then
      let st :=
        if nonempty (buffer st)
           && (min_words cfg <=? Z.of_nat (Py.word_count (buffer st)))
        then emit st (current_header_level st) false else st in
      let st := set_level st header_level in
      let st := set_buffer st para para_start in
      if (20 <? Py.word_count para)%nat then
        let st := emit st header_level true in
        set_buffer st [] (para_start + Z.of_nat (length para))
      else st
    else
      let test_buffer :=
        if nonempty (buffer st) then buffer st ++ [NL] ++ para else para in
      let test_word_count := Z.of_nat (Py.word_count test_buffer) in
      let is_critical := _is_critical_content para in
      if (max_words cfg <? test_word_count) && nonempty (buffer st)
         && negb is_critical
      then
        let st := emit st (current_header_level st) false in
        let overlap_text := _get_overlap_text cfg (buffer st) in
        if nonempty overlap_text
        then set_buffer st (overlap_text ++ [NL] ++ para)
               (para_start - Z.of_nat (length overlap_text))
        else set_buffer st para para_start
      else
        if negb (nonempty test_buffer) || (buffer_start st =? gco)
        then set_buffer st test_buffer para_start
        else set_buffer st test_buffer (buffer_start st).

(** [if buffer and len(buffer.split()) >= 30: ...] *)
Definition flushable (st : state) : bool :=
  nonempty (buffer st) && (30 <=? Py.word_count (buffer st))%nat.

(** The body of [for page in pages]. *)
Definition page_start (st : state) (page : Page) : state :=
  mkState (chunks st) (next_id st) (current_section st)
    (global_char_offset st) [] (global_char_offset st) 0
    (page_page_number page).

Definition page_loop (cfg : Config) (st : state) (page : Page) : state :=
  fold_left (para_step cfg (page_text page))
    (_split_into_paragraphs (page_text page)) (page_start st page).

Definition page_end (st : state) (page : Page) : state :=
  let st :=
    if flushable st
    then set_buffer (emit st (current_header_level st) false) []
           (buffer_start st)
    else st in
  mkState (chunks st) (next_id st) (current_section st)
    (global_char_offset st + Z.of_nat (length (page_text page)) + 1)
    (buffer st) (buffer_start st) (current_header_level st) (page_num st).

Definition page_step (cfg : Config) (st : state) (page : Page) : state :=
  page_end (page_loop cfg st page) page.

(** The flush after the loop over the pages. *)
Definition final_flush (st : state) : state :=
  if flushable st then emit st (current_header_level st) false else st.

Definition initial_state : state := mkState [] 0 None 0 [] 0 0 0.

(** [_link_chunks]: [sections] is the dict [section_chunks], its values
    being positions in the chunk list. *)
Fixpoint group_add (sid : str) (i : nat) (groups : list (str * list nat))
  : list (str * list nat) :=
  match groups with
  | [] => [(sid, [i])]
  | (k, l) :: rest =>
      if str_eqb k sid then (k, l ++ [i]) :: rest
      else (k, l) :: group_add sid i rest
  end.

Definition section_chunks (cs : list Chunk) : list (str * list nat) :=
  fold_left (fun groups ic =>
               match section_id (snd ic) with
               | Some sid =>
                   if nonempty sid then group_add sid (fst ic) groups
                   else groups
               | None => groups
               end)
            (imap (fun i c => (i, c)) cs) [].

Definition link_section (cs : list Chunk) (members : list nat) : list Chunk :=
  snd (fold_left
         (fun (acc : option Z * list Chunk) i =>
            let '(header_chunk, cs) := acc in
            match cs !! i with
            | Some c =>
                if ChunkType_eqb (chunk_type c) HEADER
                then (Some (chunk_id c), cs)
                else match header_chunk with
                     | Some h =>
                         if header_level c =? 0
                         then (header_chunk,
                               <[i := set_parent_chunk_id c (Some h)]> cs)
                         else acc
                     | None => acc
                     end
            | None => acc
            end)
         members (None, cs)).

Definition _link_chunks (cs : list Chunk) : list Chunk :=
  fold_left (fun cs g => link_section cs (snd g)) (section_chunks cs) cs.

(** [chunk_document]: with no page at all, the flush after the loop reads
    [buffer] before any assignment. *)
Definition chunk_document (cfg : Config) (pages : list Page)
  : result (list Chunk) :=
  match pages with
  | [] => Raise UnboundLocalError
  | _ =>
      let st := fold_left (page_step cfg) pages initial_state in
      Ok (_link_chunks (chunks (final_flush st)))
  end.

(** [Chunk.to_dict], and the dict [summarize_summaries] builds by hand:
    only the keys the summarizer reads. *)
Record ChunkDict := mkChunkDict {
  d_text : str;
  d_chunk_id : Z;
  d_page_number : Z;
  d_chunk_type : ChunkType;
  d_has_section_id : bool;          (* is the key 'section_id' present? *)
  d_section_id : option str;
  d_contains_numbers : bool;
  d_contains_dates : bool;
  d_contains_exceptions : bool;
  d_contains_risks : bool;
  d_contains_contradictions : bool;
  d_header_level : Z
}.

Definition to_dict (c : Chunk) : ChunkDict :=
  mkChunkDict (text c) (chunk_id c) (page_number c) (chunk_type c)
    true (section_id c) (contains_numbers c) (contains_dates c)
    (contains_exceptions c) (contains_risks c) (contains_contradictions c)
    (header_level c).

End Chunker.

(* ===================================================================== *)
(** ** summarizer/enhanced_ai_summarizer.py *)

Module Summarizer.
Import Py Re.
Export Chunker.

Inductive SummaryStrategy :=
| EXTRACTIVE
| ABSTRACTIVE
| HYBRID
| CRITICAL_PRESERVING.

(** The explainability dict of a summary; a key that is not set is [None],
    [false] or the empty list.  The values the source formats into text
    with a float format are kept as numbers. *)
Record Explain := mkExplain {
  inclusion_reason : str;
  critical_content_found : list str;
  structural_role : str;
  preservation_priority : str;
  section_context : option str;
  strategy_reason : option str;
  note : option str;
  compression_applied : bool;
  words_removed : option Z;
  removal_percentage : option Q;
  content_removed : list str;
  child_summaries_included : list Z;
  sections_covered : list str;
  total_critical_preserved : option Z;
  avg_confidence : option Q
}.

Record SummaryResult := mkSummaryResult {
  summary_text : str;
  original_words : Z;
  summary_words : Z;
  compression_ratio : Q;
  strategy : SummaryStrategy;
  source_chunks : list Z;
  source_pages : list Z;
  confidence : Q;
  preserved_critical : list str;
  level : str;
  section_id : option str;
  explainability : Explain
}.

Definition set_section_id (r : SummaryResult) (sid : option str)
  : SummaryResult :=
  mkSummaryResult (summary_text r) (original_words r) (summary_words r)
    (compression_ratio r) (strategy r) (source_chunks r) (source_pages r)
    (confidence r) (preserved_critical r) (level r) sid (explainability r).

Definition set_level (r : SummaryResult) (lv : str) : SummaryResult :=
  mkSummaryResult (summary_text r) (original_words r) (summary_words r)
    (compression_ratio r) (strategy r) (source_chunks r) (source_pages r)
    (confidence r) (preserved_critical r) lv (section_id r)
    (explainability r).

(** [EnhancedAISummarizer.__init__]: the configured strategy, and the
    sequence-to-sequence model when one could be loaded. *)
Record Self := mkSelf {
  self_strategy : SummaryStrategy;
  self_model : option (str -> str)
}.

(** [self.critical_patterns], in the order of the dict.  The source writes
    each pattern as a raw string whose backslashes are doubled, so that
    [\\b] is a backslash followed by the letter b, [\\d+] a backslash
    followed by one or more letters d, and so on. *)
Definition bs_b : re := Seq backslash (Chr "b").
Definition bs_d_plus : re := Seq backslash (plus (Chr "d")).
Definition bs_s_plus : re := Seq backslash (plus (Chr "s")).
Definition bs_s_star : re := Seq backslash (Star (Chr "s")).
Definition bs_d (lo hi : nat) : re := Seq backslash (between lo hi (Chr "d")).

Definition crit_number : re :=
  seq [bs_b; bs_d_plus;
       opt (seq [backslash; dot; bs_d_plus]);
       bs_s_star;
       opt (alt [Seq (word "day") (opt (Chr "s"));
                 Seq (word "hour") (opt (Chr "s"));
                 Seq (word "minute") (opt (Chr "s"));
                 Seq (word "year") (opt (Chr "s"));
                 Seq backslash Eol;
                 Cls (fun _ => false);              (* the euro sign *)
                 Chr (ascii_of_N 163);              (* the pound sign *)
                 Chr "%"; word "GB"; word "MB"; word "TB"]);
       bs_b].

Definition crit_date : re :=
  Alt (seq [bs_b; bs_d 1 2; Cls (one_of "-/"); bs_d 1 2; Cls (one_of "-/");
            bs_d 2 4; bs_b])
      (seq [months; Star (Cls islower_chr); bs_s_plus; bs_d 1 2;
            opt (Chr ","); bs_s_star; bs_d 4 4]).

Definition crit_exception : re :=
  seq [bs_b;
       alt [word "EXCEPTION"; word "unless"; word "except"; word "only if";
            word "however"; word "but"; word "although"];
       bs_b].

Definition crit_risk : re :=
  seq [bs_b;
       alt [word "RISK"; word "WARNING"; word "ALERT"; word "CAUTION";
            word "DANGER"; word "MUST"; word "REQUIRED"; word "PROHIBITED"];
       bs_b].

Definition crit_threshold : re :=
  seq [bs_b;
       alt [word "minimum"; word "maximum"; word "threshold"; word "limit";
            word "at least"; word "at most"; word "no more than";
            word "no less than"];
       bs_b].

Definition critical_patterns : list (string * re) :=
  [("number"%string, crit_number); ("date"%string, crit_date);
   ("exception"%string, crit_exception); ("risk"%string, crit_risk);
   ("threshold"%string, crit_threshold)].

(** [any(p.search(sent) for p in self.critical_patterns.values())] *)
Definition matches_critical (sent : str) : bool :=
  existsb (fun p => found true (snd p) sent) critical_patterns.

(** The pattern of [re.split] in [_extractive_summarize]. *)
Definition sentence_break : re := Seq (Behind (one_of ".!?")) bs_s_plus.

(** The pattern of [re.findall] for word tokens. *)
Definition word_token : re := Seq backslash (plus (Chr "w")).

(** The pattern of the key terms in [_calculate_confidence]. *)
Definition key_term : re :=
  seq [bs_b; bs_d_plus; opt (seq [backslash; dot; bs_d_plus]); bs_b].

(** The two patterns of [_generate_explainability]. *)
Definition explain_number : re :=
  seq [bs_b; bs_d_plus; opt (seq [backslash; dot; bs_d_plus]); bs_s_star;
       opt (alt [Seq (word "day") (opt (Chr "s"));
                 Seq (word "hour") (opt (Chr "s"));
                 Seq (word "year") (opt (Chr "s")); Chr "%"]);
       bs_b].

Definition explain_date : re :=
  seq [bs_b; months; Star (Cls islower_chr); bs_s_plus; bs_d 1 2;
       opt (Chr ","); bs_s_star; bs_d 4 4; bs_b].

(** [_extract_critical_info].  The source walks [set(matches)], whose order
    Python leaves open; the model walks the matches in order of first
    occurrence. *)
Definition in_list (x : str) (l : list str) : bool := existsb (str_eqb x) l.

Definition dedup (l : list str) : list str :=
  fold_left (fun acc x => if in_list x acc then acc else acc ++ [x]) l [].

Definition context_of (t m : str) : option str :=
  let idx := Py.find m t 0 in
  if idx =? -1 then None
  else
    let start := Z.max 0 (idx - 50) in
    let stop := Z.min (Z.of_nat (length t)) (idx + 50) in
    Some (strip (take (Z.to_nat (stop - start)) (drop (Z.to_nat start) t))).

Definition _extract_critical_info (t : str) : list str :=
  let critical :=
    fold_left
      (fun critical p =>
         fold_left
           (fun critical m =>
              match context_of t m with
              | Some context =>
                  if in_list context critical then critical
                  else critical ++ [context]
              | None => critical
              end)
           (dedup (findall true (snd p) t)) critical)
      critical_patterns [] in
  take 10 critical.

(** The scoring loop of [_extractive_summarize]. *)
Definition count_words (words : list str) : gmap str Z :=
  fold_left
    (fun word_freq w => <[w := default 0 (word_freq !! w) + 1]> word_freq)
    words ∅.

Definition word_freq_of (t : str) : gmap str Z :=
  count_words (findall false word_token (lower t)).

Definition sentence_score (word_freq : gmap str Z) (sent : str) : Z :=
  let score :=
    fold_left (fun score w => score + default 0 (word_freq !! w))
              (findall false word_token (lower sent)) 0 in
  if matches_critical sent then score * 3 else score.

Definition scored := (str * Z * Z)%type.

Definition score_sentences (t : str) (sentences : list str) : list scored :=
  let word_freq := word_freq_of t in
  map (fun sent => (sent, sentence_score word_freq sent,
                    Z.of_nat (Py.word_count sent)))
      sentences.

(** The greedy selection loop. *)
Definition select (target_words target_sentences : Z) (scores : list scored)
  : list str * Z :=
  fold_left
    (fun (acc : list str * Z) (x : scored) =>
       let '(selected, current_words) := acc in
       let '(sent, _, word_count) := x in
       if (current_words + word_count <=? target_words)
          && (Z.of_nat (length selected) <? target_sentences)
       then (selected ++ [sent], current_words + word_count)
       else acc)
    scores ([], 0).

Definition by_position (t : str) (l : list str) : list str :=
  sort_asc (fun x => Py.find x t 0) l.

(** [_extractive_summarize] *)
Definition _extractive_summarize (t : str) (ratio : Q) : str :=
  let sentences := Re.split false sentence_break t in
  if (length sentences <=? 3)%nat then t
  else
    let target_sentences :=
      Z.max 1 (int (float (Z.of_nat (length sentences)) * ratio)) in
    let target_words :=
      int (float (Z.of_nat (Py.word_count t)) * ratio) in
    let scores := score_sentences t sentences in
    let scores := sort_desc (fun x => snd (fst x)) scores in
    let selected := fst (select target_words target_sentences scores) in
    let summary := join (s " ") (by_position t selected) in
    if (Py.word_count t <=? Py.word_count summary)%nat then
      let forced_count :=
        Z.max 1 (int (float (Z.of_nat (length sentences)) * (25 # 100))) in
      let forced := map (fun x => fst (fst x)) (slice_to scores forced_count) in
      join (s " ") (by_position t forced)
    else summary.

(** [_abstractive_summarize]: without a model the extractive path is taken;
    the model sees the prompt and the first 1500 characters. *)
Definition _abstractive_summarize (self : Self) (t : str) : str :=
  match self_model self with
  | None => _extractive_summarize t (35 # 100)
  | Some generate => generate (s "summarize: " ++ take 1500 t)
  end.

(** [_critical_preserving_summarize] *)
Definition _critical_preserving_summarize (t : str) (critical_info : list str)
  : str :=
  let summary := _extractive_summarize t (4 # 10) in
  let summary :=
    fold_left
      (fun summary info =>
         if negb (contains info summary) && (10 <? length info)%nat
         then summary ++ s " " ++ info else summary)
      (take 3 critical_info) summary in
  if Qltb (float (Z.of_nat (Py.word_count t)) * (8 # 10))
          (float (Z.of_nat (Py.word_count summary)))
  then _extractive_summarize t (3 # 10)
  else summary.

(** [_calculate_confidence] *)
Definition _calculate_confidence (original summary : str)
    (critical_info : list str) : Q :=
  let confidence := 5 # 10 in
  let orig_words := Z.of_nat (Py.word_count original) in
  let sum_words := Z.of_nat (Py.word_count summary) in
  let ratio :=
    if 0 <? orig_words then (float sum_words / float orig_words)%Q else 0%Q in
  let confidence :=
    if Qleb (15 # 100) ratio && Qleb ratio (4 # 10)
    then (confidence + (3 # 10))%Q
    else if Qltb (5 # 10) ratio then (confidence - (2 # 10))%Q
    else if Qltb ratio (1 # 10) then (confidence + (1 # 10))%Q
    else confidence in
  let preserved :=
    fold_left
      (fun preserved info =>
         let key_terms := findall false key_term info in
         if existsb (fun term => contains term summary) key_terms
         then preserved + 1 else preserved)
      critical_info 0 in
  let confidence :=
    match critical_info with
    | [] => confidence
    | _ =>
        let preservation_rate :=
          (float preserved / float (Z.of_nat (length critical_info)))%Q in
        (confidence + preservation_rate * (3 # 10))%Q
    end in
  Py.max 0 (Py.min 1 confidence).

(** [_identify_removed_content] *)
Definition _identify_removed_content (original summary : str) : list str :=
  let removed :=
    (if contains (s "example") (lower original)
        && negb (contains (s "example") (lower summary))
     then [s "Detailed examples and case studies"] else [])
    ++ (if (length (split_on "." summary) * 2
            <? length (split_on "." original))%nat
        then [s "Elaborative explanations and context"] else [])
    ++ (if Qltb (float (Z.of_nat (length (dedup (Py.split (lower original))))))
                (float (Z.of_nat (Py.word_count original)) * (7 # 10))
        then [s "Redundant and repetitive statements"] else [])
    ++ (if (length summary * 3 <? length original)%nat
        then [s "Narrative background and historical context"] else []) in
  match removed with
  | [] => [s "Non-critical supporting details"]
  | _ => removed
  end.

(** [_generate_explainability] *)
Definition blank_explain : Explain :=
  mkExplain [] [] [] (s "standard") None None None false None None [] [] []
    None None.

Definition _generate_explainability (chunk : ChunkDict) (t : str) : Explain :=
  let chunk_type := d_chunk_type chunk in
  let header_level := d_header_level chunk in
  let section_id :=
    if d_has_section_id chunk then d_section_id chunk else Some (s "none") in
  let structural_role :=
    if header_level =? 1 then s "Section header"
    else if header_level =? 2 then s "Subsection header"
    else s "Content body" in
  let '(inclusion_reason, preservation_priority) :=
    if ChunkType_eqb chunk_type CRITICAL then
      (s "Contains decision-critical information that cannot be lost",
       s "critical")
    else if ChunkType_eqb chunk_type HEADER then
      (s "Provides structural context and navigation reference", s "high")
    else if d_contains_numbers chunk && d_contains_dates chunk then
      (s "Contains temporal and quantitative data relevant to decisions",
       s "high")
    else if d_contains_exceptions chunk then
      (s "Contains policy exceptions that modify standard rules",
       s "critical")
    else if d_contains_risks chunk then
      (s "Contains risk warnings or compliance alerts", s "critical")
    else
      (s "Standard content providing context and supporting information",
       s "standard") in
  let critical_content_found :=
    (if d_contains_numbers chunk
     then map (fun n => s "Number: " ++ n)
              (take 3 (findall true explain_number t))
     else [])
    ++ (if d_contains_dates chunk
        then map (fun d => s "Date: " ++ d)
                 (take 2 (findall true explain_date t))
        else [])
    ++ (if d_contains_exceptions chunk
        then [s "Exception clause detected"] else [])
    ++ (if d_contains_risks chunk then [s "Risk alert detected"] else [])
    ++ (if d_contains_contradictions chunk
        then [s "Contradiction detected (requires human review)"] else []) in
  let section_context :=
    match section_id with
    | Some sid =>
        if nonempty sid && negb (str_eqb sid (s "uncategorized"))
        then Some (s "Part of Section " ++ sid) else None
    | None => None
    end in
  mkExplain inclusion_reason critical_content_found structural_role
    preservation_priority section_context None None false None None []
    [] [] None None.

(** The keys [summarize_chunk] adds after compression. *)
Definition annotate (e : Explain) (reason : str) (nt : option str)
    (removed : Z) (percentage : Q) (content : list str) : Explain :=
  mkExplain (inclusion_reason e) (critical_content_found e)
    (structural_role e) (preservation_priority e) (section_context e)
    (Some reason) nt true (Some removed) (Some percentage) content
    (child_summaries_included e) (sections_covered e)
    (total_critical_preserved e) (avg_confidence e).

(** [summarize_chunk] *)
Definition summarize_chunk (self : Self) (chunk : ChunkDict)
    (strategy : option SummaryStrategy) : SummaryResult :=
  let strategy := default (self_strategy self) strategy in
  let t := d_text chunk in
  let chunk_id := d_chunk_id chunk in
  let page := d_page_number chunk in
  let chunk_type := d_chunk_type chunk in
  let section_id := d_section_id chunk in
  let word_count := Z.of_nat (Py.word_count t) in
  let explainability := _generate_explainability chunk t in
  if word_count <? 50 then
    mkSummaryResult t word_count word_count 1 strategy [chunk_id] [page] 1
      [] (s "chunk") section_id explainability
  else
    let critical_info := _extract_critical_info t in
    let '(strategy, strategy_reason) :=
      if word_count <? 200 then
        (EXTRACTIVE, s "Short text - using extractive to prevent expansion")
      else if ChunkType_eqb chunk_type CRITICAL || d_contains_exceptions chunk
      then (CRITICAL_PRESERVING,
            s "Critical content detected - using preservation mode")
      else (EXTRACTIVE,
            s "Using extractive summarization for reliable compression") in
    let summary :=
      match strategy with
      | EXTRACTIVE => _extractive_summarize t (35 # 100)
      | ABSTRACTIVE => _abstractive_summarize self t
      | CRITICAL_PRESERVING => _critical_preserving_summarize t critical_info
      | HYBRID => _extractive_summarize t (35 # 100)
      end in
    let summary_words := Z.of_nat (Py.word_count summary) in
    let '(summary, nt) :=
      if word_count <=? summary_words
      then (_extractive_summarize t (25 # 100),
            Some (s "Expansion prevented - forced stricter compression"))
      else (summary, None) in
    let confidence := _calculate_confidence t summary critical_info in
    let summary_words := Z.of_nat (Py.word_count summary) in
    let words_removed := word_count - summary_words in
    (* [word_count] is at least 50 here *)
    let percentage :=
      (float (Z.max 0 words_removed) / float word_count * 100)%Q in
    let explainability :=
      annotate explainability strategy_reason nt (Z.max 0 words_removed)
        percentage (_identify_removed_content t summary) in
    mkSummaryResult summary word_count summary_words
      (if 0 <? word_count then (float summary_words / float word_count)%Q
       else 0%Q)
      strategy [chunk_id] [page] confidence critical_info (s "chunk")
      section_id explainability.

(** [summarize_chunks] *)
Definition summarize_chunks (self : Self) (chunks : list ChunkDict)
    (lv : str) : list SummaryResult :=
  map (fun chunk => set_level (summarize_chunk self chunk None) lv) chunks.

(** [str.title()] *)
Fixpoint title_from (in_word : bool) (t : str) : str :=
  match t with
  | [] => []
  | c :: t' =>
      let cased := isupper_chr c || islower_chr c in
      (if in_word then lower_chr c else upper_chr c) :: title_from cased t'
  end.

Definition title (t : str) : str := title_from false t.

(** [list(set(l))]: the order is not fixed by Python; first occurrences. *)
Definition dedup_Z (l : list Z) : list Z := remove_dups l.

Definition first_source_chunks (summaries : list SummaryResult) : list Z :=
  flat_map (fun r => match source_chunks r with
                     | c :: _ => [c]
                     | [] => []
                     end)
           summaries.

Definition truthy_section_ids (summaries : list SummaryResult) : list str :=
  flat_map (fun r => match section_id r with
                     | Some sid => if nonempty sid then [sid] else []
                     | None => []
                     end)
           summaries.

Definition sum_Q (l : list Q) : Q := fold_left Qplus l 0%Q.
Definition sum_Z (l : list Z) : Z := fold_left Z.add l 0.

Definition mean_confidence (summaries : list SummaryResult) : Q :=
  match summaries with
  | [] => 0%Q
  | _ => (sum_Q (map confidence summaries)
          / float (Z.of_nat (length summaries)))%Q
  end.

(** [summarize_summaries] *)
Definition summarize_summaries (self : Self) (summaries : list SummaryResult)
    (lv : str) : result SummaryResult :=
  let combined_text := join (s " ") (map summary_text summaries) in
  let aggregated_explain (nt : option str) :=
    mkExplain
      (s "Aggregated summary of "
         ++ s (pretty (length summaries)) ++ s " sub-sections")
      [] (title lv ++ s " level overview") (s "high") None None nt false
      None None []
      (first_source_chunks summaries)
      (dedup (truthy_section_ids summaries))
      (Some (sum_Z (map (fun r => Z.of_nat (length (preserved_critical r)))
                        summaries)))
      (Some (mean_confidence summaries)) in
  page_number <-
    match summaries with
    | [] => Ok 0
    | r :: _ => first (source_pages r)
    end;;
  let result :=
    summarize_chunk self
      (mkChunkDict combined_text (-1) page_number STANDARD false None
         false false false false false 0)
      None in
  final <-
    (if str_eqb lv (s "document") && (summary_words result <? 100) then
       let fallback := _extractive_summarize combined_text (5 # 10) in
       let words := Z.of_nat (Py.word_count fallback) in
       ratio <- div (float words) (float (original_words result));;
       Ok (fallback, words, ratio,
           Some (s "Fallback to extractive due to length constraints"))
     else
       Ok (summary_text result, summary_words result,
           compression_ratio result, None));;
  let '(text', words', ratio', nt) := final in
  Ok (mkSummaryResult text' (original_words result) words' ratio'
        (strategy result)
        (first_source_chunks summaries)
        (dedup_Z (flat_map source_pages summaries))
        (confidence result) (preserved_critical result) lv
        (section_id result) (aggregated_explain nt)).

End Summarizer.

(* ===================================================================== *)
(** ** hierarchical_compressor.py *)

Module Compressor.
Import Py.
Export Summarizer.

(** What the loader hands over: only the keys the compressor reads. *)
Record StructureElement := mkElement { element_type : str; content : str }.

Record Stats := mkStats {
  total_pages : Z;
  total_words : Z;
  structural_elements : Z
}.

Record DocumentData := mkDocumentData {
  pages : list Page;
  structure : list StructureElement;
  stats : Stats
}.

(** The [config] dict of [compress_document] after the defaults are merged;
    the key ['strategy'] is never read. *)
Record CompressConfig := mkCompressConfig {
  chunker_config : Config;
  doc_max_length : Z
}.

Definition default_config : CompressConfig :=
  mkCompressConfig (mkConfig 75 300 20) 300.

(** The [compression_note] of a document summary: the two f-strings, by
    their arguments. *)
Inductive CompressionNote :=
| NoSummarization (max_length : Z)
| ExtractiveSummarization (target_ratio : Q)
    (original_word_count max_length : Z).

Record DocExplain := mkDocExplain {
  doc_inclusion_reason : str;
  doc_structural_role : str;
  doc_preservation_priority : str;
  doc_sections_covered : list str;
  doc_total_critical_preserved : Z;
  doc_avg_confidence : Q;
  compression_note : CompressionNote
}.

(** The local dataclass [DocSummary]. *)
Record DocSummary := mkDocSummary {
  doc_summary_text : str;
  doc_summary_words : Z;
  doc_original_words : Z;
  doc_compression_ratio : Q;
  doc_confidence : Q;
  doc_level : str;
  doc_source_chunks : list Z;
  doc_source_pages : list Z;
  doc_explainability : DocExplain;
  doc_strategy : SummaryStrategy;
  doc_preserved_critical : list str
}.

Inductive Item :=
| ChunkItem (chunk_id : Z) (section_id : str) (summary : str)
    (confidence : Q) (explainability : Explain) (source_range : Z * Z)
    (page_number : Z)
| SectionItem (section_id : option str) (summary : str) (confidence : Q)
    (explainability : Explain)
| DocumentItem (summary : str) (confidence : Q) (explainability : DocExplain).

Record LevelStat := mkLevel {
  level_name : str;
  item_count : Z;
  level_total_words : Z;
  level_compression_ratio : Q;
  items : list Item
}.

Record CriticalFact := mkFact {
  fact_section : str;
  fact_page : Z;
  fact_type : str;
  fact_summary : str;
  has_exception : bool;
  has_risk : bool;
  has_contradiction : bool;
  has_numbers : bool;
  fact_source_range : Z * Z;
  fact_chunk_id : Z
}.

(** [CompressionReport]; the wall-clock [compression_date] and the list
    [traceability_links], which stays empty, are left out. *)
Record CompressionReport := mkReport {
  document_name : str;
  original_stats : Stats;
  levels : list LevelStat;
  information_loss_score : Q;
  critical_preservation_rate : Q;
  contradiction_count : Z;
  compression_decisions : list (str * str);
  critical_facts_summary : list CriticalFact
}.

(** The attributes of a [HierarchicalCompressor].  [store] holds every
    [SummaryResult] object; the two summary lists hold references into it,
    so that two references to one object see each other's assignments. *)
Record Self := mkSelf {
  document_data : DocumentData;
  chunks : list Chunk;
  store : list SummaryResult;
  chunk_summaries : list nat;
  section_summaries : list nat;
  document_summary : option DocSummary;
  report : option CompressionReport
}.

(** The objects a list of references stands for. *)
Definition objects (st : list SummaryResult) (refs : list nat)
  : list SummaryResult :=
  omap (fun l => st !! l) refs.

(** [x or "uncategorized"] *)
Definition or_default (x : option str) (d : str) : str :=
  match x with
  | Some v => if nonempty v then v else d
  | None => d
  end.

(** ** [_create_section_summaries] *)

Definition chunk_to_section (cs : list Chunk) : gmap Z str :=
  fold_left (fun m c =>
               <[Chunker.chunk_id c :=
                   or_default (Chunker.section_id c) (s "uncategorized")]> m)
            cs ∅.

Definition section_groups (cs : list Chunk) (st : list SummaryResult)
    (refs : list nat) : list (str * list nat) :=
  let c2s := chunk_to_section cs in
  fold_left
    (fun groups l =>
       match st !! l with
       | Some summary =>
           match source_chunks summary with
           | chunk_id :: _ =>
               group_add (default (s "uncategorized") (c2s !! chunk_id))
                         l groups
           | [] => groups
           end
       | None => groups
       end)
    refs [].

(** One iteration of [for section_id, summaries in section_groups.items()],
    on the store and the list of section summaries built so far. *)
Definition section_step (summarizer : Summarizer.Self)
    (acc : result (list SummaryResult * list nat)) (g : str * list nat)
  : result (list SummaryResult * list nat) :=
  acc <- acc;;
  let '(st, section_summaries) := acc in
  let '(section_id, summaries) := g in
  match summaries with
  | [l] =>
      (* sec_summary = summaries[0]; sec_summary.section_id = section_id *)
      Ok (alter (fun r => set_section_id r (Some section_id)) l st,
          section_summaries ++ [l])
  | _ =>
      sec <- summarize_summaries summarizer (objects st summaries)
               (s "section");;
      Ok (st ++ [set_section_id sec (Some section_id)],
          section_summaries ++ [length st])
  end.

Definition _create_section_summaries (summarizer : Summarizer.Self)
    (self : Self) : result (list SummaryResult * list nat) :=
  fold_left (section_step summarizer)
    (section_groups (chunks self) (store self) (chunk_summaries self))
    (Ok (store self, [])).

(** ** [_create_document_summary] *)

(** The loop that appends first sentences of section summaries. *)
Fixpoint expand (max_length : Z) (summary_text : str)
    (sections : list SummaryResult) (expanded_parts : list str)
    (current_count : Z) : list str :=
  match sections with
  | [] => expanded_parts
  | sec_summary :: rest =>
      if (200 <=? current_count) || (max_length - 50 <=? current_count)
      then expanded_parts
      else
        let sentences := split_on "." (Summarizer.summary_text sec_summary) in
        let '(expanded_parts, current_count) :=
          fold_left
            (fun (acc : list str * Z) sent =>
               let '(expanded_parts, current_count) := acc in
               let sent := strip sent in
               if (20 <? length sent)%nat && negb (contains sent summary_text)
               then
                 let sent_words := Z.of_nat (Py.word_count sent) in
                 if current_count + sent_words <=? max_length - 20
                 then (expanded_parts ++ [sent], current_count + sent_words)
                 else acc
               else acc)
            (take 1 sentences) (expanded_parts, current_count) in
        expand max_length summary_text rest expanded_parts current_count
  end.

Definition doc_explain (sections : list SummaryResult)
    (nt : CompressionNote) : DocExplain :=
  mkDocExplain
    (s "Aggregated summary of " ++ s (pretty (length sections))
       ++ s " sub-sections")
    (s "Document level overview") (s "high")
    (dedup (truthy_section_ids sections))
    (sum_Z (map (fun r => Z.of_nat (length (preserved_critical r))) sections))
    (mean_confidence sections) nt.

Definition make_doc_summary (sections : list SummaryResult)
    (summary_text : str) (summary_words original_word_count : Z)
    (nt : CompressionNote) : DocSummary :=
  mkDocSummary summary_text summary_words original_word_count
    (if 0 <? original_word_count
     then (float summary_words / float original_word_count)%Q else 0%Q)
    (85 # 100) (s "document")
    (first_source_chunks sections)
    (dedup_Z (flat_map source_pages sections))
    (doc_explain sections nt) EXTRACTIVE [].

(** Everything after "Apply summarization with calculated ratio". *)
Definition compress_to (sections : list SummaryResult) (max_length : Z)
    (combined_text : str) (original_word_count : Z) (target_ratio : Q)
  : DocSummary :=
  let summary_text := _extractive_summarize combined_text target_ratio in
  let summary_words := Z.of_nat (Py.word_count summary_text) in
  let '(summary_text, summary_words) :=
    if max_length <? summary_words then
      (* still over max: truncate hard *)
      let words := Py.split summary_text in
      let truncated := slice_to words max_length in
      (join (s " ") truncated ++ s "...", Z.of_nat (length truncated))
    else if (summary_words <? 150) && (summary_words <? max_length) then
      (* too short: expand, but not over max *)
      let expanded_parts :=
        expand max_length summary_text sections [summary_text] summary_words in
      let summary_text := join (s ". ") expanded_parts in
      let summary_text :=
        if endswith (s ".") summary_text then summary_text
        else summary_text ++ s "." in
      (summary_text, Z.of_nat (Py.word_count summary_text))
    else (summary_text, summary_words) in
  let '(summary_text, summary_words) :=
    (* final check *)
    if max_length <? summary_words then
      let words := Py.split summary_text in
      (join (s " ") (slice_to words max_length) ++ s "...", max_length)
    else (summary_text, summary_words) in
  make_doc_summary sections summary_text summary_words original_word_count
    (ExtractiveSummarization target_ratio original_word_count max_length).

(** The ratio of the compressing branch. *)
Definition target_ratio_for (max_length original_word_count : Z) : result Q :=
  target_ratio <- div (float (max_length - 10)) (float original_word_count);;
  Ok (Py.max (10 # 100) (Py.min (30 # 100) target_ratio)).

Definition _create_document_summary (sections : list SummaryResult)
    (max_length : Z) : result DocSummary :=
  let combined_text := join (s " ") (map Summarizer.summary_text sections) in
  let original_word_count := Z.of_nat (Py.word_count combined_text) in
  if original_word_count <=? max_length then
    if original_word_count <? 150 then
      Ok (compress_to sections max_length combined_text original_word_count
            (9 # 10))
    else
      Ok (make_doc_summary sections combined_text original_word_count
            original_word_count (NoSummarization max_length))
  else
    target_ratio <- target_ratio_for max_length original_word_count;;
    Ok (compress_to sections max_length combined_text original_word_count
          target_ratio).

(** ** Critical facts, contradictions and quality metrics *)

Definition is_critical_fact (c : Chunk) : bool :=
  ChunkType_eqb (chunk_type c) CRITICAL || contains_risks c
  || contains_exceptions c.

(** [_extract_critical_facts] *)
Definition _extract_critical_facts (self : Self) : list CriticalFact :=
  flat_map
    (fun cs : Chunk * SummaryResult =>
       let '(chunk, summary) := cs in
       if is_critical_fact chunk then
         [mkFact (or_default (Chunker.section_id chunk) (s "unknown"))
            (page_number chunk) (s "critical") (summary_text summary)
            (contains_exceptions chunk) (contains_risks chunk)
            (contains_contradictions chunk) (contains_numbers chunk)
            (source_range chunk) (Chunker.chunk_id chunk)]
       else [])
    (combine (chunks self) (objects (store self) (chunk_summaries self))).

(** [_detect_contradictions] *)
Definition _detect_contradictions (self : Self) : Z :=
  let count :=
    fold_left
      (fun count elem =>
         if str_eqb (element_type elem) (s "contradiction")
         then count + 1 else count)
      (structure (document_data self)) 0 in
  fold_left
    (fun count c => if contains_contradictions c then count + 1 else count)
    (chunks self) count.

(** The test [is_critical] of [_calc_critical_preservation]. *)
Definition is_critical (c : Chunk) : bool :=
  ChunkType_eqb (chunk_type c) CRITICAL || contains_exceptions c
  || contains_risks c || contains_contradictions c.

(** The counting loop of [_calc_critical_preservation]:
    [(total_critical, preserved)]. *)
Definition count_critical (pairs : list (Chunk * SummaryResult)) : Z * Z :=
  fold_left
    (fun (acc : Z * Z) (cs : Chunk * SummaryResult) =>
       let '(total_critical, preserved) := acc in
       let '(c, r) := cs in
       if is_critical c then
         (total_critical + 1,
          if Qleb (3 # 10) (confidence r) then preserved + 1 else preserved)
       else acc)
    pairs (0, 0).

(** [_calc_critical_preservation] *)
Definition _calc_critical_preservation (self : Self) : Q :=
  let '(total_critical, preserved) :=
    count_critical
      (combine (chunks self) (objects (store self) (chunk_summaries self))) in
  if 0 <? total_critical
  then (float preserved / float total_critical)%Q else 1%Q.

(** [_calc_info_loss] *)
Definition _calc_info_loss (self : Self) (doc : DocSummary) : result Q :=
  final_ratio <-
    div (float (doc_summary_words doc))
        (float (total_words (stats (document_data self))));;
  let summaries := objects (store self) (chunk_summaries self) in
  let avg_conf := mean_confidence summaries in
  let crit_rate := _calc_critical_preservation self in
  let loss :=
    ((1 - final_ratio) * (3 # 10) + (1 - avg_conf) * (4 # 10)
     + (1 - crit_rate) * (3 # 10))%Q in
  Ok (Py.max 0 (Py.min 1 loss)).

(** ** [_build_report] *)

Definition guarded_ratio (num den : Z) : Q :=
  if 0 <? den then (float num / float den)%Q else 0%Q.

Definition chunk_items (self : Self) : list Item :=
  imap
    (fun i (sc : SummaryResult * Chunk) =>
       let '(r, chunk) := sc in
       ChunkItem
         (match source_chunks r with c :: _ => c | [] => Z.of_nat i end)
         (or_default (Chunker.section_id chunk) (s "uncategorized"))
         (summary_text r) (confidence r) (explainability r)
         (source_range chunk) (page_number chunk))
    (combine (objects (store self) (chunk_summaries self)) (chunks self)).

Definition section_items (self : Self) : list Item :=
  map (fun r => SectionItem (Summarizer.section_id r) (summary_text r)
                  (confidence r) (explainability r))
      (objects (store self) (section_summaries self)).

Definition decisions (self : Self) (doc : DocSummary)
    (critical_facts : list CriticalFact) : list (str * str) :=
  let n := Z.of_nat (length (chunks self)) in
  let avg :=
    match chunks self with
    | [] => 0
    | _ => sum_Z (map word_count (chunks self)) / n
    end in
  let critical_chunks :=
    length (List.filter (fun c => ChunkType_eqb (chunk_type c) CRITICAL)
                   (chunks self)) in
  let section_ids :=
    dedup (flat_map (fun c => match Chunker.section_id c with
                              | Some sid => if nonempty sid then [sid] else []
                              | None => []
                              end)
                    (chunks self)) in
  [ (s "Chunking",
     s (pretty n) ++ s " semantic chunks with structural awareness (avg "
       ++ s (pretty avg) ++ s " words/chunk)");
    (s "Summarization",
     s "Hybrid approach: extractive for critical, abstractive for narrative");
    (s "Critical Content",
     s (pretty critical_chunks) ++ s " critical chunks preserved with "
       ++ s (pretty (length critical_facts))
       ++ s " critical facts extracted");
    (s "Per-Item Explainability",
     s "Each chunk includes inclusion reason, priority, "
       ++ s "content removed, and preservation details");
    (s "Document Length Optimization",
     s "Ensured " ++ s (pretty (doc_summary_words doc))
       ++ s " words for readable document summary (target: 200-300 words)");
    (s "Section Tracking",
     s "Preserved " ++ s (pretty (length section_ids))
       ++ s " unique section identifiers for traceability") ].

Definition _build_report (self : Self) (doc : DocSummary) (name : str)
    (original_stats : Stats) (contradictions : Z)
    (critical_facts : list CriticalFact) : result CompressionReport :=
  let raw :=
    mkLevel (s "raw") (Z.of_nat (length (pages (document_data self))))
      (total_words original_stats) 1 [] in
  let chunk_objs := objects (store self) (chunk_summaries self) in
  let chunk_total := sum_Z (map summary_words chunk_objs) in
  chunk_ratio <-
    div (float chunk_total) (float (total_words original_stats));;
  let chunk_level :=
    mkLevel (s "chunk") (Z.of_nat (length (chunk_summaries self))) chunk_total
      chunk_ratio (chunk_items self) in
  let section_objs := objects (store self) (section_summaries self) in
  let sec_total := sum_Z (map summary_words section_objs) in
  let section_level :=
    mkLevel (s "section") (Z.of_nat (length (section_summaries self)))
      sec_total (guarded_ratio sec_total chunk_total) (section_items self) in
  let document_level :=
    mkLevel (s "document") 1 (doc_summary_words doc)
      (guarded_ratio (doc_summary_words doc) sec_total)
      [DocumentItem (doc_summary_text doc) (doc_confidence doc)
         (doc_explainability doc)] in
  let rate := _calc_critical_preservation self in
  loss <- _calc_info_loss self doc;;
  Ok (mkReport name original_stats
        [raw; chunk_level; section_level; document_level]
        loss rate contradictions (decisions self doc critical_facts)
        critical_facts).

(** ** [compress_document], from the loaded [document_data] on *)

Definition compress_document (name : str) (data : DocumentData)
    (config : CompressConfig) : result Self :=
  let original_stats := stats data in
  cs <- chunk_document (chunker_config config) (pages data);;
  let summarizer := Summarizer.mkSelf HYBRID None in
  let results := summarize_chunks summarizer (map to_dict cs) (s "chunk") in
  let self := mkSelf data cs results (seq 0 (length results)) [] None None in
  sections <- _create_section_summaries summarizer self;;
  let '(st, section_refs) := sections in
  let self := mkSelf data cs st (chunk_summaries self) section_refs None None in
  doc <- _create_document_summary (objects st section_refs)
           (doc_max_length config);;
  let self :=
    mkSelf data cs st (chunk_summaries self) section_refs (Some doc) None in
  let critical_facts := _extract_critical_facts self in
  let contradictions := _detect_contradictions self in
  rep <- _build_report self doc name original_stats contradictions
           critical_facts;;
  let self :=
    mkSelf data cs st (chunk_summaries self) section_refs (Some doc)
      (Some rep) in
  (* the ratio printed at the end *)
  ratio <- div (float (doc_summary_words doc))
             (float (total_words original_stats));;
  Ok self.

End Compressor.

(* ===================================================================== *)
(** ** The specification's own notions, stated in its words *)

Module Spec.
Import Py Compressor.

(** "value ∈ [0,1]" *)
Definition unit_interval (q : Q) : Prop := (0 <= q)%Q /\ (q <= 1)%Q.

(** "clamp(x, lo, hi)" *)
Definition clamp (x lo hi : Q) : Q :=
  if Qlt_le_dec x lo then lo
  else if Qlt_le_dec hi x then hi
  else x.

(** "a critical chunk counts as preserved when its paired summary
    confidence ≥ 0.3" *)
Definition total_critical (pairs : list (Chunk * SummaryResult)) : Z :=
  Z.of_nat (length (List.filter (fun cs => is_critical (fst cs)) pairs)).

Definition preserved (pairs : list (Chunk * SummaryResult)) : Z :=
  Z.of_nat
    (length (List.filter (fun cs => is_critical (fst cs)
                               && Qle_bool (3 # 10) (confidence (snd cs)))
                    pairs)).

(** "critical_preservation_rate = preserved / total_critical ...; defaults
    to 1.0 when there are no critical chunks" *)
Definition critical_preservation_rate
    (pairs : list (Chunk * SummaryResult)) : Q :=
  if total_critical pairs =? 0 then 1%Q
  else (float (preserved pairs) / float (total_critical pairs))%Q.

(** "the sum of its words' frequencies" over the whole text, both
    case-folded, for the word tokens the engine extracts. *)
Definition tokens (t : str) : list str :=
  Re.findall false word_token (lower t).

Definition occurrences (w : str) (l : list str) : Z :=
  Z.of_nat (length (List.filter (fun x => str_eqb x w) l)).

Definition frequency_sum (t sent : str) : Z :=
  sum_Z (map (fun w => occurrences w (tokens t)) (tokens sent)).

(** "multiply the score by 3 if the sentence matches any critical pattern
    (number, date, exception, risk, contradiction, threshold)": the five
    patterns of the summarizer and the contradiction pattern, which only
    the chunker has. *)
Definition matches_six_patterns (sent : str) : bool :=
  matches_critical sent || pat_search pat_contradiction sent.

Definition six_pattern_score (t sent : str) : Z :=
  if matches_six_patterns sent then frequency_sum t sent * 3
  else frequency_sum t sent.

(** The score with the patterns the summarizer has. *)
Definition five_pattern_score (t sent : str) : Z :=
  if matches_critical sent then frequency_sum t sent * 3
  else frequency_sum t sent.

End Spec.

(* ===================================================================== *)
(** ** Notions used to state invariants *)

Module Invariants.
Import Py Compressor.

(** A word: not empty, and free of white space. *)
Definition is_word (w : str) : Prop :=
  w <> [] /\ Forall (fun c => isspace c = false) w.

(** The words of a list of texts. *)
Definition total_words (l : list str) : Z :=
  Z.of_nat (list_sum (map Py.word_count l)).

(** A scored sentence carries its own word count. *)
Definition counted (x : scored) : Prop :=
  snd x = Z.of_nat (Py.word_count (fst (fst x))).

(** The section a summary reference is grouped under. *)
Definition ref_key (cs : list Chunk) (st : list SummaryResult) (l : nat)
  : option str :=
  match st !! l with
  | Some summary =>
      match source_chunks summary with
      | chunk_id :: _ =>
          Some (default (s "uncategorized") (chunk_to_section cs !! chunk_id))
      | [] => None
      end
  | None => None
  end.

(** Every member of a group is grouped under its own key. *)
Definition keyed (key : nat -> option str) (groups : list (str * list nat))
  : Prop :=
  Forall (fun g => Forall (fun m => key m = Some (fst g)) (snd g)) groups.

(** What the section loop does to the object at [l]: each group whose
    only member is [l] assigns its section id. *)
Definition relabel (groups : list (str * list nat)) (l : nat)
    (r : SummaryResult) : SummaryResult :=
  fold_left
    (fun r (g : str * list nat) =>
       match snd g with
       | [l'] => if (l' =? l)%nat then set_section_id r (Some (fst g)) else r
       | _ => r
       end)
    groups r.

(** The state with its buffer erased. *)
Definition erase_buffer (st : Chunker.state) : Chunker.state :=
  mkState (Chunker.chunks st) (next_id st) (current_section st)
    (global_char_offset st) [] 0 0 0.

End Invariants.

(* ===================================================================== *)
(** ** Concrete inputs used by the worked examples *)

Module Samples.
Import Py Compressor.

Definition summarizer : Summarizer.Self := Summarizer.mkSelf HYBRID None.

(** A standard chunk of ten words. *)
Definition ten_word_chunk : ChunkDict :=
  mkChunkDict (s "one two three four five six seven eight nine ten")
    0 1 STANDARD true None false false false false false 0.

(** A document of one page without any text. *)
Definition blank_document : DocumentData :=
  mkDocumentData [mkPage 1 []] [] (mkStats 1 0 0).

(** A summary object with a given text, confidence and source chunk. *)
Definition summary_of (t : str) (conf : Q) (chunk : Z) : SummaryResult :=
  mkSummaryResult t (Z.of_nat (Py.word_count t)) (Z.of_nat (Py.word_count t))
    1 EXTRACTIVE [chunk] [1] conf [] (s "chunk") None blank_explain.

(** A section summary of exactly one thousand words. *)
Definition thousand_words : SummaryResult :=
  summary_of (concat (repeat (s "word ") 1000)) 1 0.

(** A section summary of 280 words. *)
Definition words_280 : SummaryResult :=
  summary_of (concat (repeat (s "word ") 280)) 1 0.

(** A paragraph of 25 words that states a risk. *)
Definition risk_paragraph : str :=
  s "RISK: must maintain minimum 30 days of reserve at all times and "
  ++ s "the auditor shall review every ledger entry each quarter "
  ++ s "without any delay whatsoever".

(** A chunk with given flags. *)
Definition chunk_of (id : Z) (t : str) (kind : ChunkType)
    (sec : option str) (risks : bool) : Chunk :=
  mkChunk id t 1 (Z.of_nat (Py.word_count t)) kind sec None false false
    false risks false 0 (0, Z.of_nat (length t)).

(** A compressor that has chunked and summarized one paragraph found
    outside any section. *)
Definition plain_chunk : Chunk :=
  chunk_of 0 (s "some short text outside any section") STANDARD None false.

Definition one_chunk_run : Self :=
  mkSelf blank_document [plain_chunk]
    (summarize_chunks summarizer [to_dict plain_chunk] (s "chunk"))
    [0%nat] [] None None.

(** A page of 29 words in one paragraph. *)
Definition short_page (n : Z) : Page :=
  mkPage n
    (s "a1 a2 a3 a4 a5 a6 a7 a8 a9 a10 b1 b2 b3 b4 b5 b6 b7 b8 b9 b10 "
       ++ s "c1 c2 c3 c4 c5 c6 c7 c8 c9").

(** A text of five sentences for the engine's sentence splitter, and its
    first sentence, which names a conflict. *)
Definition conflict_text : str :=
  s "\w CONFLICT.\s\w a.\s\w b.\s\w c.\sd".

Definition conflict_sentence : str := s "\w CONFLICT.".

End Samples.
(* ===================================================================== *)
(** * Part II: properties *)
(* ===================================================================== *)

(** ** Words, joins and slices *)

Module PyFacts.
Import Py Invariants.

(** Case analysis on every condition of the goal. *)
Ltac destruct_ifs :=
  repeat match goal with
         | |- context [if ?c then _ else _] => destruct c
         end.

Lemma str_eqb_eq a b : str_eqb a b = true <-> a = b.
Proof.
  revert b. induction a as [|x a IH]; intros [|y b]; simpl;
    try (split; [discriminate | congruence]); [tauto|].
  rewrite andb_true_iff, IH. unfold chr_eqb. rewrite Ascii.eqb_eq.
  split; [intros [-> ->]; reflexivity | intros [= -> ->]; split; reflexivity].
Qed.

Lemma split_cons c t :
  split (c :: t) =
  if isspace c then split t
  else match t with
       | [] => [[c]]
       | c' :: _ =>
           if isspace c' then [c] :: split t
           else match split t with
                | w :: ws => (c :: w) :: ws
                | [] => [[c]]
                end
       end.
Proof. reflexivity. Qed.

Lemma split_head_nonempty c t : isspace c = false -> split (c :: t) <> [].
Proof.
  intros Hc. simpl. rewrite Hc.
  destruct t as [|c' t']; [discriminate|].
  destruct (isspace c'); [discriminate|].
  destruct (split (c' :: t')); discriminate.
Qed.

Lemma split_app_space a c b :
  isspace c = true -> split (a ++ c :: b) = split a ++ split b.
Proof.
  intros Hc. induction a as [|x a IH].
  - simpl. now rewrite Hc.
  - change ((x :: a) ++ c :: b) with (x :: (a ++ c :: b)).
    destruct (isspace x) eqn:Hx.
    + simpl. rewrite Hx. exact IH.
    + destruct a as [|y a'].
      * simpl. now rewrite Hx, Hc.
      * change ((y :: a') ++ c :: b) with (y :: (a' ++ c :: b)) in *.
        rewrite (split_cons x (y :: a' ++ c :: b)),
                (split_cons x (y :: a')), Hx, IH.
        destruct (isspace y) eqn:Hy; [reflexivity|].
        pose proof (split_head_nonempty y a' Hy) as Hne.
        destruct (split (y :: a')) as [|w ws]; [congruence|].
        reflexivity.
Qed.

Lemma split_all_space t : Forall (fun c => isspace c = true) t -> split t = [].
Proof.
  induction 1 as [|c t Hc _ IH]; [reflexivity|].
  simpl. now rewrite Hc.
Qed.

Lemma split_join_space l :
  split (join (s " ") l) = concat (map split l).
Proof.
  induction l as [|a l IH]; [reflexivity|].
  destruct l as [|b l'].
  - simpl. now rewrite app_nil_r.
  - change (join (s " ") (a :: b :: l'))
      with (a ++ " "%char :: join (s " ") (b :: l')).
    rewrite split_app_space by reflexivity.
    rewrite IH. reflexivity.
Qed.

Lemma split_word w : is_word w -> split w = [w].
Proof.
  intros [Hne Hall]. induction Hall as [|c t Hc Ht IH]; [congruence|].
  simpl. rewrite Hc. destruct t as [|c' t']; [reflexivity|].
  inversion Ht as [|? ? Hc' _]; subst. rewrite Hc'.
  rewrite IH by discriminate. reflexivity.
Qed.

Lemma split_words t : Forall is_word (split t).
Proof.
  induction t as [|c t IH]; [constructor|].
  simpl. destruct (isspace c) eqn:Hc; [exact IH|].
  assert (Hone : is_word [c])
    by (split; [discriminate | repeat constructor; exact Hc]).
  destruct t as [|c' t']; [constructor; [exact Hone | constructor]|].
  destruct (isspace c') eqn:Hc'; [constructor; [exact Hone | exact IH]|].
  destruct (split (c' :: t')) as [|w ws];
    [constructor; [exact Hone | constructor]|].
  inversion IH as [|? ? [Hw1 Hw2] Hws]; subst.
  constructor; [|exact Hws].
  split; [discriminate | constructor; assumption].
Qed.

Lemma split_join_words ws :
  Forall is_word ws -> split (join (s " ") ws) = ws.
Proof.
  intros H. rewrite split_join_space.
  induction H as [|w ws Hw _ IH]; [reflexivity|].
  simpl. rewrite (split_word w Hw), IH. reflexivity.
Qed.

Lemma join_snoc sep l w x :
  join sep (l ++ [w]) ++ x = join sep (l ++ [w ++ x]).
Proof.
  induction l as [|a l IH]; [reflexivity|].
  destruct l as [|b l'].
  - simpl. now rewrite <- !app_assoc.
  - change (join sep ((a :: b :: l') ++ [w]))
      with (a ++ sep ++ join sep ((b :: l') ++ [w])).
    change (join sep ((a :: b :: l') ++ [w ++ x]))
      with (a ++ sep ++ join sep ((b :: l') ++ [w ++ x])).
    rewrite <- IH, <- !app_assoc. reflexivity.
Qed.

Lemma is_word_app w x : is_word w -> Forall (fun c => isspace c = false) x ->
  is_word (w ++ x).
Proof.
  intros [Hne Hall] Hx. split.
  - destruct w; [congruence | discriminate].
  - apply Forall_app. split; assumption.
Qed.

(** Appending the ellipsis to a text of [n > 0] words keeps [n] words. *)
Lemma word_count_ellipsis ws :
  Forall is_word ws -> ws <> [] ->
  word_count (join (s " ") ws ++ s "...") = length ws.
Proof.
  intros Hws Hne.
  destruct (exists_last Hne) as (l & w & ->).
  rewrite join_snoc. unfold word_count.
  rewrite split_join_words.
  - rewrite !length_app. reflexivity.
  - apply Forall_app in Hws as [Hl Hw]. apply Forall_app. split; [exact Hl|].
    inversion Hw; subst. repeat constructor.
    + destruct w; [destruct H1; congruence | discriminate].
    + apply Forall_app. split; [apply H1 | repeat constructor].
Qed.

Lemma word_count_join l :
  word_count (join (s " ") l) = list_sum (map word_count l).
Proof.
  unfold word_count. rewrite split_join_space.
  induction l as [|a l IH]; [reflexivity|].
  simpl. rewrite length_app, IH. reflexivity.
Qed.

Lemma slice_to_length {A} (l : list A) n :
  0 <= n <= Z.of_nat (length l) -> Z.of_nat (length (slice_to l n)) = n.
Proof.
  intros H. unfold slice_to.
  destruct (n <? 0) eqn:Hn; [lia|].
  rewrite length_take. lia.
Qed.

End PyFacts.
(** ** The word budget of the document summary *)

Module DocumentBudget.
Import Py PyFacts Compressor Invariants.

(** Whatever the extractive engine returns, the branches that follow it
    leave [summary_words] within the budget. *)
Lemma compress_to_words sections max_length combined owc ratio :
  doc_summary_words (compress_to sections max_length combined owc ratio)
  <= max_length.
Proof.
  unfold compress_to.
  set (t0 := _extractive_summarize combined ratio).
  destruct (max_length <? Z.of_nat (Py.word_count t0)) eqn:Hover.
  - (* hard truncation *)
    set (n := Z.of_nat (length (slice_to (Py.split t0) max_length))).
    destruct (max_length <? n) eqn:Hn; simpl; lia.
  - destruct ((Z.of_nat (Py.word_count t0) <? 150)
              && (Z.of_nat (Py.word_count t0) <? max_length)) eqn:Hshort.
    + match goal with
      | |- context [Z.of_nat (Py.word_count ?t)] =>
          lazymatch t with
          | t0 => fail
          | _ => set (n := Z.of_nat (Py.word_count t))
          end
      end.
      destruct (max_length <? n) eqn:Hn; simpl; lia.
    + rewrite Hover. simpl. lia.
Qed.


Lemma truncated_text t n :
  0 < n < Z.of_nat (Py.word_count t) ->
  Z.of_nat (Py.word_count (join (s " ") (slice_to (Py.split t) n) ++ s "..."))
  = n.
Proof.
  intros H. unfold Py.word_count in H.
  assert (Hlen : Z.of_nat (length (slice_to (Py.split t) n)) = n)
    by (apply slice_to_length; lia).
  rewrite word_count_ellipsis; [exact Hlen| |].
  - unfold slice_to. destruct (n <? 0); apply Forall_take, split_words.
  - intros E. rewrite E in Hlen. simpl in Hlen. lia.
Qed.

(** With a positive budget, the recorded [summary_words] of the compressing
    branches is the number of words of the recorded text. *)
Lemma compress_to_text sections max_length combined owc ratio :
  0 < max_length ->
  Z.of_nat (Py.word_count
              (doc_summary_text
                 (compress_to sections max_length combined owc ratio)))
  = doc_summary_words (compress_to sections max_length combined owc ratio).
Proof.
  intros Hpos. unfold compress_to.
  set (t0 := _extractive_summarize combined ratio).
  destruct (max_length <? Z.of_nat (Py.word_count t0)) eqn:Hover.
  - apply Z.ltb_lt in Hover.
    assert (Hlen : Z.of_nat (length (slice_to (Py.split t0) max_length))
                   = max_length)
      by (apply slice_to_length; unfold Py.word_count in Hover; lia).
    rewrite Hlen, Z.ltb_irrefl. simpl.
    rewrite truncated_text by lia. reflexivity.
  - destruct ((Z.of_nat (Py.word_count t0) <? 150)
              && (Z.of_nat (Py.word_count t0) <? max_length)) eqn:Hshort.
    + match goal with
      | |- context [Z.of_nat (Py.word_count ?t)] =>
          lazymatch t with
          | t0 => fail
          | context [doc_summary_text] => fail
          | _ => set (t1 := t)
          end
      end.
      destruct (max_length <? Z.of_nat (Py.word_count t1)) eqn:Hn; simpl.
      * apply Z.ltb_lt in Hn. apply truncated_text. lia.
      * reflexivity.
    + rewrite Hover. reflexivity.
Qed.

(** With a positive budget the recorded count is the count of the text. *)
Lemma document_summary_words_are_text_words sections max_length doc :
  0 < max_length ->
  _create_document_summary sections max_length = Ok doc ->
  Z.of_nat (Py.word_count (doc_summary_text doc)) = doc_summary_words doc.
Proof.
  intros Hpos. unfold _create_document_summary.
  set (combined := join (s " ") (map summary_text sections)).
  set (owc := Z.of_nat (Py.word_count combined)).
  destruct (owc <=? max_length).
  - destruct (owc <? 150); intros [= <-].
    + apply compress_to_text; exact Hpos.
    + reflexivity.
  - destruct (target_ratio_for max_length owc); simpl; intros [= <-].
    apply compress_to_text; exact Hpos.
Qed.

(** C1.  The document summary never records more words than
    [doc_max_length]: in the pass-through branch, after extractive
    compression, after the hard truncation and after the re-truncation that
    follows an expansion; and for a positive budget the recorded count is
    the number of words of the summary text.  The aggregation returns a
    summary for every budget that is not negative; it can only raise when
    the budget is negative (and the combined text is empty). *)
Theorem document_summary_within_budget sections max_length :
  match _create_document_summary sections max_length with
  | Ok doc =>
      doc_summary_words doc <= max_length
      /\ (0 < max_length ->
          Z.of_nat (Py.word_count (doc_summary_text doc))
          = doc_summary_words doc)
  | Raise _ => max_length < 0
  end.
Proof.
  pose proof (document_summary_words_are_text_words sections max_length)
    as Htext.
  unfold _create_document_summary in *.
  set (combined := join (s " ") (map summary_text sections)) in *.
  set (owc := Z.of_nat (Py.word_count combined)) in *.
  destruct (owc <=? max_length) eqn:Hle.
  - destruct (owc <? 150).
    + split; [apply compress_to_words|].
      intros Hpos. apply Htext; [exact Hpos | reflexivity].
    + split; [simpl; lia | reflexivity].
  - unfold target_ratio_for, div in *.
    destruct (Qeq_bool (float owc) 0) eqn:Hz; cbn [bind] in *.
    + apply Qeq_bool_eq in Hz. unfold float, Qeq in Hz. simpl in Hz. lia.
    + split; [apply compress_to_words|].
      intros Hpos. apply Htext; [exact Hpos | reflexivity].
Qed.

(** One thousand words under a budget of 300: the hard truncation leaves
    a text of exactly 300 words. *)
Lemma document_summary_within_budget_witness :
  exists doc,
    _create_document_summary [Samples.thousand_words] 300 = Ok doc
    /\ doc_summary_words doc <= 300
    /\ Z.of_nat (Py.word_count (doc_summary_text doc)) = doc_summary_words doc.
Proof.
  pose proof (document_summary_within_budget [Samples.thousand_words] 300)
    as H.
  destruct (_create_document_summary [Samples.thousand_words] 300)
    as [doc|e]; [|lia].
  destruct H as [Hbound Htext].
  exists doc. split; [reflexivity|]. split; [exact Hbound|].
  apply Htext. lia.
Defined.

End DocumentBudget.

(** ** Sorting only reorders *)

Module SortFacts.
Import Py.

Lemma insert_asc_perm {A} (key : A -> Z) x l :
  Permutation (insert_asc key x l) (x :: l).
Proof.
  induction l as [|y l IH]; [reflexivity|].
  simpl. destruct (key x <? key y); [reflexivity|].
  rewrite IH. apply perm_swap.
Qed.

Lemma insert_desc_perm {A} (key : A -> Z) x l :
  Permutation (insert_desc key x l) (x :: l).
Proof.
  induction l as [|y l IH]; [reflexivity|].
  simpl. destruct (key y <? key x); [reflexivity|].
  rewrite IH. apply perm_swap.
Qed.

Lemma sort_asc_perm {A} (key : A -> Z) l : Permutation (sort_asc key l) l.
Proof.
  unfold sort_asc.
  enough (forall acc,
             Permutation (fold_left (fun acc x => insert_asc key x acc) l acc)
                         (acc ++ l)) as H by apply (H []).
  induction l as [|x l IH]; intros acc; simpl.
  - now rewrite app_nil_r.
  - rewrite IH, insert_asc_perm. apply Permutation_middle.
Qed.

Lemma sort_desc_perm {A} (key : A -> Z) l : Permutation (sort_desc key l) l.
Proof.
  unfold sort_desc.
  enough (forall acc,
             Permutation (fold_left (fun acc x => insert_desc key x acc) l acc)
                         (acc ++ l)) as H by apply (H []).
  induction l as [|x l IH]; intros acc; simpl.
  - now rewrite app_nil_r.
  - rewrite IH, insert_desc_perm. apply Permutation_middle.
Qed.

End SortFacts.

(** ** The extractive engine never lengthens a text *)

Module ExtractiveFacts.
Import Py PyFacts SortFacts Re Summarizer Invariants.

(** Truncating [n * ratio] for a ratio in [0, 1). *)
Lemma int_of_fraction n ratio :
  0 < n -> (0 <= ratio)%Q -> (ratio < 1)%Q ->
  0 <= int (float n * ratio) < n.
Proof.
  intros Hn H0 H1. destruct ratio as [rn rd].
  unfold Qle, Qlt in *. simpl in *. unfold int. simpl.
  assert (0 <= rn) by lia. assert (rn < Zpos rd) by lia.
  split.
  - apply Z.quot_pos; nia.
  - apply Z.quot_lt_upper_bound; nia.
Qed.

(** The selection loop keeps the running count equal to the words selected
    and within the target. *)
Lemma select_spec target_words target_sentences scores :
  Forall counted scores ->
  snd (select target_words target_sentences scores)
  = total_words (fst (select target_words target_sentences scores))
  /\ snd (select target_words target_sentences scores)
     <= Z.max 0 target_words.
Proof.
  intros Hall. unfold select.
  enough (forall acc : list str * Z,
             snd acc = total_words (fst acc)
             /\ snd acc <= Z.max 0 target_words ->
             let out :=
               fold_left
                 (fun (acc : list str * Z) (x : scored) =>
                    let '(selected, current_words) := acc in
                    let '(sent, _, word_count) := x in
                    if (current_words + word_count <=? target_words)
                       && (Z.of_nat (length selected) <? target_sentences)
                    then (selected ++ [sent], current_words + word_count)
                    else acc)
                 scores acc in
             snd out = total_words (fst out)
             /\ snd out <= Z.max 0 target_words) as H.
  { apply (H ([], 0)). simpl. unfold total_words. simpl. lia. }
  induction Hall as [|x scores Hx _ IH]; intros acc Hacc; [exact Hacc|].
  simpl. apply IH.
  destruct acc as [selected current_words].
  destruct x as [[sent score] word_count].
  unfold counted in Hx. simpl in Hx, Hacc.
  destruct ((current_words + word_count <=? target_words)
            && (Z.of_nat (length selected) <? target_sentences)) eqn:E;
    [|exact Hacc].
  apply andb_true_iff in E as [E _]. apply Z.leb_le in E.
  simpl. unfold total_words in *.
  rewrite map_app, list_sum_app. simpl. lia.
Qed.

Lemma score_sentences_counted t sentences :
  Forall counted (score_sentences t sentences).
Proof.
  unfold score_sentences. apply Forall_map.
  apply Forall_forall. intros sent _. reflexivity.
Qed.

Lemma total_words_perm l l' :
  Permutation l l' -> total_words l = total_words l'.
Proof.
  intros H. unfold total_words. f_equal.
  induction H; simpl; lia.
Qed.

(** A text without words has no sentence break. *)
Lemma no_break_after_space bef t :
  match bef with
  | c :: _ => isspace c = true
  | [] => True
  end ->
  match_at false sentence_break (Pos bef t None) = None.
Proof.
  intros H. unfold match_at, sentence_break. simpl.
  destruct bef as [|c bef']; [reflexivity|].
  simpl. replace (one_of ".!?" c) with false; [reflexivity|].
  symmetry. unfold one_of. simpl.
  unfold isspace, code in H. unfold chr_eqb.
  destruct c as [[] [] [] [] [] [] [] []]; try reflexivity; discriminate.
Qed.

Lemma split_blank_text fuel bef t cur :
  match bef with
  | c :: _ => isspace c = true
  | [] => True
  end ->
  Forall (fun c => isspace c = true) t ->
  length (split_at fuel false sentence_break bef t cur) = 1%nat.
Proof.
  revert bef t cur. induction fuel as [|fuel IH]; intros bef t cur Hb Ht;
    [reflexivity|].
  cbn [split_at]. rewrite no_break_after_space by exact Hb.
  destruct t as [|c t']; [reflexivity|].
  inversion Ht; subst. apply IH; assumption.
Qed.

Lemma blank_of_no_words t :
  Py.word_count t = 0%nat -> Forall (fun c => isspace c = true) t.
Proof.
  induction t as [|c t IH]; [constructor|].
  unfold Py.word_count. intros H.
  destruct (isspace c) eqn:Hc.
  - constructor; [exact Hc|]. apply IH. unfold Py.word_count.
    rewrite split_cons, Hc in H. exact H.
  - pose proof (split_head_nonempty c t Hc).
    destruct (Py.split (c :: t)); [congruence | discriminate].
Qed.

(** The engine returns at most as many words as it was given, for every
    ratio in [0, 1). *)
Lemma extractive_no_expansion t ratio :
  (0 <= ratio)%Q -> (ratio < 1)%Q ->
  (Py.word_count (_extractive_summarize t ratio) <= Py.word_count t)%nat.
Proof.
  intros H0 H1. unfold _extractive_summarize.
  destruct (length (Re.split false sentence_break t) <=? 3)%nat eqn:Hfew;
    [lia|].
  destruct (Nat.eq_dec (Py.word_count t) 0%nat) as [Hz|Hnz].
  { (* no words: a single sentence *)
    apply Nat.leb_gt in Hfew. unfold Re.split in Hfew.
    rewrite split_blank_text in Hfew; [lia | exact I |].
    apply blank_of_no_words, Hz. }
  match goal with
  | |- context [select ?tw ?ts ?sc] =>
      set (target_words := tw); set (target_sentences := ts);
      set (scores := sc)
  end.
  assert (Hcounted : Forall counted scores).
  { unfold scores.
    eapply Permutation_Forall;
      [symmetry; apply sort_desc_perm | apply score_sentences_counted]. }
  destruct (select_spec target_words target_sentences scores Hcounted)
    as [Hsum Hle].
  set (selected := fst (select target_words target_sentences scores)) in *.
  set (summary := join (s " ") (by_position t selected)).
  assert (Hwords : Z.of_nat (Py.word_count summary) = total_words selected).
  { unfold summary. rewrite word_count_join.
    apply (total_words_perm (by_position t selected) selected).
    apply sort_asc_perm. }
  assert (Htarget : 0 <= target_words < Z.of_nat (Py.word_count t))
    by (apply int_of_fraction; [lia | assumption | assumption]).
  destruct (Py.word_count t <=? Py.word_count summary)%nat eqn:Hforced.
  - apply Nat.leb_le in Hforced. lia.
  - lia.
Qed.

End ExtractiveFacts.

(** ** Chunk summaries *)

Module ChunkSummary.
Import Py PyFacts ExtractiveFacts Summarizer.

(** C2.  A chunk summary never records more words than its chunk has, and a
    chunk of fewer than 50 words is passed through: same text, ratio 1.0,
    confidence 1.0. *)
Theorem summarize_chunk_no_expansion self chunk strategy :
  let r := summarize_chunk self chunk strategy in
  original_words r = Z.of_nat (Py.word_count (d_text chunk))
  /\ summary_words r <= original_words r
  /\ (original_words r < 50 ->
      summary_text r = d_text chunk
      /\ summary_words r = original_words r
      /\ compression_ratio r = 1%Q
      /\ confidence r = 1%Q).
Proof.
  unfold summarize_chunk.
  set (W := Z.of_nat (Py.word_count (d_text chunk))).
  destruct (W <? 50) eqn:Hsmall.
  - simpl. repeat split; lia.
  - apply Z.ltb_ge in Hsmall.
    set (strat := if W <? 200 then _ else _).
    destruct strat as [strategy' reason].
    set (summary := match strategy' with
                    | EXTRACTIVE => _
                    | ABSTRACTIVE => _
                    | HYBRID => _
                    | CRITICAL_PRESERVING => _
                    end).
    destruct (W <=? Z.of_nat (Py.word_count summary)) eqn:Hsafe; simpl.
    + pose proof (extractive_no_expansion (d_text chunk) (25 # 100))
        as Hle.
      split; [reflexivity|]. split; [|lia].
      fold W. apply inj_le in Hle; [exact Hle | easy | easy].
    + apply Z.leb_gt in Hsafe. split; [reflexivity|]. split; lia.
Qed.

(** A 10-word standard chunk is returned as it is. *)
Lemma summarize_chunk_no_expansion_witness :
  original_words
    (summarize_chunk Samples.summarizer Samples.ten_word_chunk None) = 10
  /\ summary_text
       (summarize_chunk Samples.summarizer Samples.ten_word_chunk None)
     = d_text Samples.ten_word_chunk
  /\ compression_ratio
       (summarize_chunk Samples.summarizer Samples.ten_word_chunk None) = 1%Q
  /\ confidence
       (summarize_chunk Samples.summarizer Samples.ten_word_chunk None) = 1%Q.
Proof.
  destruct (summarize_chunk_no_expansion Samples.summarizer
              Samples.ten_word_chunk None) as (Hw & _ & Hpass).
  assert (Hten : original_words
                   (summarize_chunk Samples.summarizer Samples.ten_word_chunk
                      None) = 10) by (rewrite Hw; reflexivity).
  destruct Hpass as (Ht & _ & Hr & Hc); [lia|].
  repeat split; assumption.
Defined.

End ChunkSummary.

(** ** Ratios against a zero denominator *)

Module ZeroDenominator.
Import Py Compressor.

(** The chunk-level ratio of the report divides by the document's word
    count without a guard. *)
Lemma build_report_raises self doc name original_stats contradictions facts :
  total_words original_stats = 0 ->
  _build_report self doc name original_stats contradictions facts
  = Raise ZeroDivisionError.
Proof.
  intros Hz. unfold _build_report. rewrite Hz. reflexivity.
Qed.

(** So does the loss score with the final ratio. *)
Lemma calc_info_loss_raises self doc :
  total_words (stats (document_data self)) = 0 ->
  _calc_info_loss self doc = Raise ZeroDivisionError.
Proof.
  intros Hz. unfold _calc_info_loss. rewrite Hz. reflexivity.
Qed.

(** C3 (as the code behaves).  On a document of one blank page every stage
    up to the document summary succeeds, and building the report raises
    [ZeroDivisionError]; so does the whole run. *)
Theorem zero_word_document_raises :
  chunk_document (chunker_config default_config)
    (pages Samples.blank_document) = Ok []
  /\ (exists doc,
         _create_document_summary [] (doc_max_length default_config) = Ok doc
         /\ _build_report
              (mkSelf Samples.blank_document [] [] [] [] (Some doc) None)
              doc (s "blank.pdf") (stats Samples.blank_document) 0 []
            = Raise ZeroDivisionError)
  /\ compress_document (s "blank.pdf") Samples.blank_document default_config
     = Raise ZeroDivisionError.
Proof.
  split; [reflexivity|]. split; [|reflexivity].
  eexists. split; [reflexivity|]. apply build_report_raises. reflexivity.
Qed.

End ZeroDenominator.

(** ** Confidence, preservation rate and loss score *)

Module UnitInterval.
Import Py PyFacts Compressor Spec.

Lemma clamp_unit x : unit_interval (Py.max 0 (Py.min 1 x)).
Proof.
  unfold unit_interval, Py.max, Py.min.
  destruct (Qlt_le_dec x 1) as [Hx|Hx];
    [destruct (Qlt_le_dec 0 x) as [Hp|Hp] | destruct (Qlt_le_dec 0 1)].
  - split; apply Qlt_le_weak; assumption.
  - split; [apply Qle_refl | discriminate].
  - split; [discriminate | apply Qle_refl].
  - split; [apply Qle_refl | discriminate].
Qed.

Lemma calculate_confidence_unit original summary critical_info :
  unit_interval (_calculate_confidence original summary critical_info).
Proof. unfold _calculate_confidence. apply clamp_unit. Qed.

Lemma one_unit : unit_interval 1.
Proof. split; [discriminate | apply Qle_refl]. Qed.

Lemma summarize_chunk_confidence_unit self chunk strategy :
  unit_interval (confidence (summarize_chunk self chunk strategy)).
Proof.
  unfold summarize_chunk.
  destruct (Z.of_nat (Py.word_count (d_text chunk)) <? 50);
    [apply one_unit|].
  destruct (if Z.of_nat (Py.word_count (d_text chunk)) <? 200 then _ else _)
    as [strategy' reason].
  match goal with
  | |- context [if ?c then _ else _] => destruct c
  end; apply calculate_confidence_unit.
Qed.

(** The counters of the preservation loop: [0 <= preserved <= total]. *)
Lemma count_critical_bounds pairs :
  0 <= snd (count_critical pairs) <= fst (count_critical pairs).
Proof.
  unfold count_critical.
  enough (forall acc : Z * Z,
             0 <= snd acc <= fst acc ->
             let out :=
               fold_left
                 (fun (acc : Z * Z) (cs : Chunk * SummaryResult) =>
                    let '(total_critical, preserved) := acc in
                    let '(c, r) := cs in
                    if is_critical c then
                      (total_critical + 1,
                       if Qleb (3 # 10) (confidence r)
                       then preserved + 1 else preserved)
                    else acc)
                 pairs acc in
             0 <= snd out <= fst out) as H
    by (apply (H (0, 0)); simpl; lia).
  induction pairs as [|[c r] pairs IH]; intros acc Hacc; [exact Hacc|].
  simpl. apply IH. destruct acc as [total kept]. simpl in *.
  destruct (is_critical c); [|exact Hacc].
  destruct (Qleb (3 # 10) (confidence r)); simpl; lia.
Qed.

Lemma fraction_unit p t :
  0 <= p <= t -> 0 < t -> unit_interval (float p / float t).
Proof.
  intros Hp Ht. unfold unit_interval, float.
  assert (Hpos : (0 < inject_Z t)%Q)
    by (unfold Qlt; simpl; lia).
  split.
  - apply Qle_shift_div_l; [exact Hpos|].
    unfold Qle. simpl. lia.
  - apply Qle_shift_div_r; [exact Hpos|].
    unfold Qle. simpl. lia.
Qed.

Lemma critical_preservation_unit self :
  unit_interval (_calc_critical_preservation self).
Proof.
  unfold _calc_critical_preservation.
  pose proof (count_critical_bounds
                (combine (chunks self)
                         (objects (store self) (chunk_summaries self)))) as H.
  destruct (count_critical _) as [total kept]. simpl in H.
  destruct (0 <? total) eqn:Ht; [|apply one_unit].
  apply Z.ltb_lt in Ht. apply fraction_unit; lia.
Qed.

Lemma compress_to_confidence sections max_length combined owc ratio :
  doc_confidence (compress_to sections max_length combined owc ratio)
  = (85 # 100)%Q.
Proof.
  unfold compress_to. destruct_ifs; reflexivity.
Qed.

(** C4.  Every confidence the summarizer or the aggregator records, the
    critical preservation rate and the information loss score lie in
    [0, 1].  The loss score is computed whenever the document has words;
    without words the computation raises (see the zero-denominator
    module), and no score exists. *)
Theorem metrics_in_unit_interval :
  (forall original summary critical_info,
      unit_interval (_calculate_confidence original summary critical_info))
  /\ (forall self chunk strategy,
         unit_interval (confidence (summarize_chunk self chunk strategy)))
  /\ (forall self summaries lv,
         match summarize_summaries self summaries lv with
         | Ok r => unit_interval (confidence r)
         | Raise _ => True
         end)
  /\ (forall sections max_length,
         match _create_document_summary sections max_length with
         | Ok doc => unit_interval (doc_confidence doc)
         | Raise _ => True
         end)
  /\ (forall self, unit_interval (_calc_critical_preservation self))
  /\ (forall self doc,
         match _calc_info_loss self doc with
         | Ok loss => unit_interval loss
         | Raise _ => total_words (stats (document_data self)) = 0
         end).
Proof.
  split; [exact calculate_confidence_unit|].
  split; [exact summarize_chunk_confidence_unit|].
  split.
  { intros self summaries lv. unfold summarize_summaries.
    destruct (match summaries with
              | [] => Ok 0
              | r :: _ => first (source_pages r)
              end) as [page|]; simpl; [|exact I].
    match goal with
    | |- context [if ?c then _ else _] => destruct c
    end; simpl.
    - match goal with
      | |- context [div ?a ?b] => destruct (div a b)
      end; simpl; [|exact I].
      apply summarize_chunk_confidence_unit.
    - apply summarize_chunk_confidence_unit. }
  split.
  { intros sections max_length.
    assert (Hconf : unit_interval (85 # 100))
      by (split; discriminate).
    unfold _create_document_summary.
    destruct (_ <=? max_length).
    - destruct (_ <? 150); [rewrite compress_to_confidence|]; exact Hconf.
    - destruct (target_ratio_for _ _); simpl; [|exact I].
      rewrite compress_to_confidence. exact Hconf. }
  split; [exact critical_preservation_unit|].
  intros self doc. unfold _calc_info_loss, div.
  destruct (Qeq_bool (float (total_words (stats (document_data self)))) 0)
    eqn:Hz; simpl.
  - apply Qeq_bool_eq in Hz. unfold float, Qeq in Hz. simpl in Hz. lia.
  - apply clamp_unit.
Qed.

End UnitInterval.

(** ** Sentence scores *)

Module SentenceScore.
Import Py PyFacts Re Summarizer Spec.

Lemma occurrences_cons w x l :
  occurrences w (x :: l)
  = (if str_eqb x w then 1 else 0) + occurrences w l.
Proof.
  unfold occurrences. simpl.
  destruct (str_eqb x w); simpl length; lia.
Qed.

(** The frequency table holds, for every token, its number of
    occurrences. *)
Lemma count_words_lookup words w :
  default 0 (count_words words !! w) = occurrences w words.
Proof.
  unfold count_words.
  enough (forall m : gmap str Z,
             default 0
               (fold_left
                  (fun word_freq w =>
                     <[w := default 0 (word_freq !! w) + 1]> word_freq)
                  words m !! w)
             = default 0 (m !! w) + occurrences w words) as H.
  { rewrite H, lookup_empty. simpl. lia. }
  induction words as [|x words IH]; intros m.
  - simpl. unfold occurrences. simpl. lia.
  - simpl. rewrite IH, occurrences_cons.
    destruct (str_eqb x w) eqn:E.
    + apply str_eqb_eq in E as ->. rewrite lookup_insert_eq. simpl. lia.
    + rewrite lookup_insert_ne; [lia|].
      intros ->. rewrite (proj2 (str_eqb_eq w w) eq_refl) in E. discriminate.
Qed.

Lemma fold_add_map {A} (f : A -> Z) l a :
  fold_left (fun score w => score + f w) l a = fold_left Z.add (map f l) a.
Proof.
  revert a. induction l as [|x l IH]; intros a; [reflexivity|].
  simpl. apply IH.
Qed.

Lemma sentence_score_sum t sent :
  sentence_score (word_freq_of t) sent = five_pattern_score t sent.
Proof.
  unfold sentence_score, five_pattern_score, frequency_sum, sum_Z,
    word_freq_of, tokens.
  rewrite <- fold_add_map.
  assert (Hsum : forall a,
            fold_left
              (fun score w =>
                 score
                 + default 0
                     (count_words (findall false word_token (lower t)) !! w))
              (findall false word_token (lower sent)) a
            = fold_left
                (fun score w =>
                   score
                   + occurrences w (findall false word_token (lower t)))
                (findall false word_token (lower sent)) a).
  { induction (findall false word_token (lower sent)) as [|w l IH];
      intros a; [reflexivity|].
    cbn [fold_left]. rewrite count_words_lookup. apply IH. }
  rewrite Hsum. reflexivity.
Qed.

(** C5 (as the code behaves).  Each sentence is scored with the sum, over
    its word tokens, of the token's number of occurrences in the
    case-folded text, and the score is tripled when the sentence matches
    one of the five patterns of the summarizer (number, date, exception,
    risk, threshold). *)
Theorem sentence_scores_five_patterns t sentences :
  score_sentences t sentences
  = map (fun sent => (sent, five_pattern_score t sent,
                      Z.of_nat (Py.word_count sent)))
        sentences.
Proof.
  unfold score_sentences. apply map_ext. intros sent.
  rewrite sentence_score_sum. reflexivity.
Qed.

(** The summarizer has no contradiction pattern: a sentence that matches
    the chunker's contradiction pattern, and none of the summarizer's, is
    scored 4 where six patterns would give 12. *)
Lemma contradiction_sentence_not_tripled :
  In Samples.conflict_sentence
     (Re.split false sentence_break Samples.conflict_text)
  /\ (3 < length (Re.split false sentence_break Samples.conflict_text))%nat
  /\ matches_six_patterns Samples.conflict_sentence = true
  /\ six_pattern_score Samples.conflict_text Samples.conflict_sentence = 12
  /\ score_sentences Samples.conflict_text [Samples.conflict_sentence]
     = [(Samples.conflict_sentence, 4, 2)]
  /\ sentence_score (word_freq_of Samples.conflict_text)
       Samples.conflict_sentence
     <> six_pattern_score Samples.conflict_text Samples.conflict_sentence.
Proof.
  assert (Hsix : six_pattern_score Samples.conflict_text
                   Samples.conflict_sentence = 12) by (vm_compute; reflexivity).
  assert (Hscore : sentence_score (word_freq_of Samples.conflict_text)
                     Samples.conflict_sentence = 4)
    by (rewrite sentence_score_sum; vm_compute; reflexivity).
  assert (Hcode : score_sentences Samples.conflict_text
                    [Samples.conflict_sentence]
                  = [(Samples.conflict_sentence, 4, 2)]).
  { unfold score_sentences. cbn [map]. rewrite Hscore. reflexivity. }
  split; [vm_compute; tauto|].
  split; [vm_compute; lia|].
  split; [vm_compute; reflexivity|].
  split; [exact Hsix|].
  split; [exact Hcode|].
  rewrite Hsix, Hscore. discriminate.
Qed.

(** The patterns are written with doubled backslashes, so a sentence with
    an ordinary decimal number matches none of them. *)
Remark decimal_number_not_matched :
  matches_critical (s "The fee is 3.5 percent.") = false.
Proof. vm_compute. reflexivity. Qed.

End SentenceScore.

(** ** The extraction ratio of the document level *)

Module TargetRatio.
Import Py PyFacts Compressor Spec DocumentBudget.

Lemma compress_to_note sections max_length combined owc ratio :
  compression_note
    (doc_explainability (compress_to sections max_length combined owc ratio))
  = ExtractiveSummarization ratio owc max_length.
Proof.
  unfold compress_to. destruct_ifs; reflexivity.
Qed.

(** [max(0.10, min(0.30, x))] is the clamp of [x] to [0.10, 0.30]. *)
Lemma max_min_is_clamp x :
  (Py.max (10 # 100) (Py.min (30 # 100) x) == clamp x (10 # 100) (30 # 100))%Q.
Proof.
  unfold Py.max, Py.min, clamp.
  destruct (Qlt_le_dec x (30 # 100)) as [Hhi|Hhi];
    destruct (Qlt_le_dec x (10 # 100)) as [Hlo|Hlo].
  - destruct (Qlt_le_dec (10 # 100) x) as [H|H]; [|reflexivity].
    exfalso. apply (Qlt_irrefl x). eapply Qlt_trans; eassumption.
  - destruct (Qlt_le_dec (30 # 100) x) as [H|H].
    + exfalso. apply (Qlt_irrefl x). eapply Qlt_trans; eassumption.
    + destruct (Qlt_le_dec (10 # 100) x) as [H'|H']; [reflexivity|].
      apply Qle_antisym; assumption.
  - exfalso. apply (Qlt_irrefl x).
    eapply Qlt_le_trans; [exact Hlo|].
    eapply Qle_trans; [|exact Hhi]. discriminate.
  - destruct (Qlt_le_dec (10 # 100) (30 # 100)) as [_|H];
      [|exfalso; apply H; reflexivity].
    destruct (Qlt_le_dec (30 # 100) x) as [H|H]; [reflexivity|].
    apply Qle_antisym; assumption.
Qed.

(** C6.  When the combined section text has more words than
    [doc_max_length], the ratio handed to the extractive engine (and
    recorded in the summary's note) is
    [clamp((doc_max_length - 10) / combined_words, 0.10, 0.30)], and the
    summary stays within the budget.  (The only run without a summary is
    the one with a negative budget and an empty text.) *)
Theorem document_target_ratio sections max_length :
  max_length
  < Z.of_nat (Py.word_count (join (s " ") (map summary_text sections))) ->
  match _create_document_summary sections max_length with
  | Ok doc =>
      (exists ratio,
          compression_note (doc_explainability doc)
          = ExtractiveSummarization ratio
              (Z.of_nat (Py.word_count
                           (join (s " ") (map summary_text sections))))
              max_length
          /\ (ratio
              == clamp
                   (float (max_length - 10)
                    / float (Z.of_nat
                               (Py.word_count
                                  (join (s " ") (map summary_text sections)))))
                   (10 # 100) (30 # 100))%Q)
      /\ doc_summary_words doc <= max_length
  | Raise _ =>
      Z.of_nat (Py.word_count (join (s " ") (map summary_text sections))) = 0
  end.
Proof.
  intros Hover. unfold _create_document_summary.
  set (combined := join (s " ") (map summary_text sections)) in *.
  set (owc := Z.of_nat (Py.word_count combined)) in *.
  destruct (owc <=? max_length) eqn:Hle; [apply Z.leb_le in Hle; lia|].
  unfold target_ratio_for, div.
  destruct (Qeq_bool (float owc) 0) eqn:Hz; simpl.
  - apply Qeq_bool_eq in Hz. unfold float, Qeq in Hz. simpl in Hz. lia.
  - split; [|apply compress_to_words].
    eexists. split; [apply compress_to_note | apply max_min_is_clamp].
Qed.

(** The scenario of the specification: 1000 combined words and a budget of
    300 give the ratio 0.29 and a summary of at most 300 words. *)
Lemma document_target_ratio_witness :
  exists doc ratio,
    _create_document_summary [Samples.thousand_words] 300 = Ok doc
    /\ compression_note (doc_explainability doc)
       = ExtractiveSummarization ratio 1000 300
    /\ (ratio == 29 # 100)%Q
    /\ doc_summary_words doc <= 300.
Proof.
  assert (Hwords :
            Z.of_nat (Py.word_count
                        (join (s " ")
                              (map summary_text [Samples.thousand_words])))
            = 1000) by (vm_compute; reflexivity).
  pose proof (document_target_ratio [Samples.thousand_words] 300) as H.
  rewrite Hwords in H.
  destruct (_create_document_summary [Samples.thousand_words] 300)
    as [doc|e]; [|discriminate H; lia].
  destruct H as [(ratio & Hnote & Hratio) Hbound]; [lia|].
  exists doc, ratio. repeat split; try assumption.
  rewrite Hratio. vm_compute. reflexivity.
Defined.

End TargetRatio.

(** ** The critical preservation rate *)

Module PreservationRate.
Import Py Compressor Spec.

(** The loop counts what the specification's two filters select. *)
Lemma count_critical_spec pairs :
  count_critical pairs = (total_critical pairs, preserved pairs).
Proof.
  unfold count_critical, total_critical, preserved.
  enough (forall a b,
             fold_left
               (fun (acc : Z * Z) (cs : Chunk * SummaryResult) =>
                  let '(total_critical, preserved) := acc in
                  let '(c, r) := cs in
                  if is_critical c then
                    (total_critical + 1,
                     if Qleb (3 # 10) (confidence r)
                     then preserved + 1 else preserved)
                  else acc)
               pairs (a, b)
             = (a + Z.of_nat
                      (length (List.filter (fun cs => is_critical (fst cs))
                                 pairs)),
                b + Z.of_nat
                      (length
                         (List.filter (fun cs =>
                                    is_critical (fst cs)
                                    && Qle_bool (3 # 10) (confidence (snd cs)))
                                 pairs)))) as H
    by (rewrite (H 0 0); f_equal; lia).
  induction pairs as [|[c r] pairs IH]; intros a b.
  - simpl. f_equal; lia.
  - cbn [fold_left List.filter fst snd]. unfold Qleb.
    destruct (is_critical c); cbn [andb].
    + destruct (Qle_bool (3 # 10) (confidence r));
        rewrite IH; cbn [length]; f_equal; lia.
    + apply IH.
Qed.

(** C7.  The rate is [preserved / total_critical], a critical chunk being
    preserved exactly when its paired confidence is at least 0.3, and it
    is 1.0 without critical chunks; a confidence of exactly 0.3 counts as
    preserved. *)
Theorem critical_preservation_rate_spec :
  (forall self,
      _calc_critical_preservation self
      = Spec.critical_preservation_rate
          (combine (chunks self) (objects (store self) (chunk_summaries self))))
  /\ (forall pairs c r,
         is_critical c = true ->
         (confidence r == 3 # 10)%Q ->
         total_critical (pairs ++ [(c, r)]) = total_critical pairs + 1
         /\ preserved (pairs ++ [(c, r)]) = preserved pairs + 1).
Proof.
  split.
  - intros self. unfold _calc_critical_preservation,
      Spec.critical_preservation_rate.
    rewrite count_critical_spec.
    set (pairs := combine _ _).
    assert (0 <= total_critical pairs) by (unfold total_critical; lia).
    destruct (0 <? total_critical pairs) eqn:Hpos;
      destruct (total_critical pairs =? 0) eqn:Hz; try reflexivity; lia.
  - intros pairs c r Hc Hconf. unfold total_critical, preserved.
    rewrite !List.filter_app, !length_app. cbn [List.filter fst snd].
    rewrite Hc.
    assert (Hle : Qle_bool (3 # 10) (confidence r) = true)
      by (apply Qle_bool_iff; rewrite Hconf; apply Qle_refl).
    rewrite Hle. cbn [andb length]. lia.
Qed.

(** One critical chunk whose summary has confidence exactly 0.3: the rate
    is 1. *)
Lemma critical_preservation_rate_spec_witness :
  total_critical
    [(Samples.chunk_of 0 (s "RISK") CRITICAL None true,
      Samples.summary_of (s "RISK") (3 # 10) 0)] = 1
  /\ preserved
       [(Samples.chunk_of 0 (s "RISK") CRITICAL None true,
         Samples.summary_of (s "RISK") (3 # 10) 0)] = 1
  /\ _calc_critical_preservation
       (mkSelf Samples.blank_document
          [Samples.chunk_of 0 (s "RISK") CRITICAL None true]
          [Samples.summary_of (s "RISK") (3 # 10) 0] [0%nat] [] None None)
     = (1 / 1)%Q.
Proof.
  destruct critical_preservation_rate_spec as [Hrate Hboundary].
  destruct (Hboundary [] (Samples.chunk_of 0 (s "RISK") CRITICAL None true)
              (Samples.summary_of (s "RISK") (3 # 10) 0))
    as [Htotal Hkept]; [reflexivity | reflexivity |].
  split; [exact Htotal|]. split; [exact Hkept|].
  rewrite Hrate. reflexivity.
Defined.

End PreservationRate.

(** ** Section aggregation and the store *)

Module SectionAggregation.
Import Py PyFacts Compressor Invariants.

Lemma group_add_keyed key sid l groups :
  key l = Some sid -> keyed key groups -> keyed key (group_add sid l groups).
Proof.
  intros Hl. unfold keyed. induction 1 as [|[k ms] groups Hg Hgs IH]; simpl.
  - repeat constructor. exact Hl.
  - destruct (str_eqb k sid) eqn:E.
    + apply str_eqb_eq in E as ->.
      constructor; [|exact Hgs]. simpl in *.
      apply Forall_app. split; [exact Hg | repeat constructor; exact Hl].
    + constructor; [exact Hg | exact IH].
Qed.

Lemma section_groups_keyed cs st refs :
  keyed (ref_key cs st) (section_groups cs st refs).
Proof.
  unfold section_groups.
  enough (forall groups,
             keyed (ref_key cs st) groups ->
             keyed (ref_key cs st)
               (fold_left
                  (fun groups l =>
                     match st !! l with
                     | Some summary =>
                         match source_chunks summary with
                         | chunk_id :: _ =>
                             group_add
                               (default (s "uncategorized")
                                  (chunk_to_section cs !! chunk_id))
                               l groups
                         | [] => groups
                         end
                     | None => groups
                     end)
                  refs groups)) as H by (apply H; constructor).
  induction refs as [|l refs IH]; intros groups Hk; [exact Hk|].
  simpl. apply IH.
  destruct (st !! l) as [summary|] eqn:El; [|exact Hk].
  destruct (source_chunks summary) as [|chunk_id rest] eqn:Es; [exact Hk|].
  apply group_add_keyed; [|exact Hk].
  unfold ref_key. rewrite El, Es. reflexivity.
Qed.

Lemma fold_section_step_raise summarizer groups e :
  fold_left (section_step summarizer) groups (Raise e) = Raise e.
Proof. induction groups as [|g groups IH]; [reflexivity | exact IH]. Qed.

(** The section loop, seen from the store: an object that was there before
    is still there, relabelled; the [i]-th group of one member [l] gives
    the [i]-th section summary, which is the reference [l] itself. *)
Lemma section_fold_spec summarizer groups :
  forall st acc st' secs,
    fold_left (section_step summarizer) groups (Ok (st, acc))
    = Ok (st', secs) ->
    (forall l r, st !! l = Some r -> st' !! l = Some (relabel groups l r))
    /\ (forall i sid l,
           groups !! i = Some (sid, [l]) ->
           secs !! (length acc + i)%nat = Some l)
    /\ (forall i x, acc !! i = Some x -> secs !! i = Some x).
Proof.
  induction groups as [|[sid members] groups IH]; intros st acc st' secs Hrun.
  - simpl in Hrun. injection Hrun as <- <-.
    split; [intros l r H; exact H|].
    split; [intros i sid l H; rewrite lookup_nil in H; discriminate|].
    intros i x H; exact H.
  - cbn [fold_left] in Hrun.
    assert (Hstep :
              exists st1 ref,
                section_step summarizer (Ok (st, acc)) (sid, members)
                = Ok (st1, acc ++ [ref])
                /\ (forall l r, st !! l = Some r ->
                      st1 !! l
                      = Some (relabel [(sid, members)] l r))
                /\ (forall l, members = [l] -> ref = l)).
    { destruct (section_step summarizer (Ok (st, acc)) (sid, members))
        as [[st1 secs1]|e] eqn:Estep;
        [|rewrite fold_section_step_raise in Hrun; discriminate].
      unfold section_step in Estep. cbn [bind] in Estep.
      destruct members as [|l [|l2 members']].
      - destruct (summarize_summaries summarizer (objects st [])
                    (s "section")) as [sec|e]; cbn [bind] in Estep;
          [|discriminate].
        injection Estep as <- <-.
        eexists _, _. split; [reflexivity|]. split; [|discriminate].
        intros l r Hl. apply lookup_app_l_Some. exact Hl.
      - injection Estep as <- <-.
        eexists _, _. split; [reflexivity|].
        split; [|intros l0 [= ->]; reflexivity].
        intros l0 r Hl. unfold relabel. cbn [fold_left snd fst].
        destruct (l =? l0)%nat eqn:E.
        + apply Nat.eqb_eq in E as ->.
          rewrite list_lookup_alter_eq, Hl. reflexivity.
        + apply Nat.eqb_neq in E.
          rewrite list_lookup_alter_ne by exact E. exact Hl.
      - destruct (summarize_summaries summarizer
                    (objects st (l :: l2 :: members')) (s "section"))
          as [sec|e]; cbn [bind] in Estep; [|discriminate].
        injection Estep as <- <-.
        eexists _, _. split; [reflexivity|]. split; [|discriminate].
        intros l0 r Hl. apply lookup_app_l_Some. exact Hl. }
    destruct Hstep as (st1 & ref & Hstep & Hstore & Href).
    rewrite Hstep in Hrun.
    destruct (IH st1 (acc ++ [ref]) st' secs Hrun) as (Hobj & Hsec & Hacc).
    split; [|split].
    + intros l r Hl. rewrite (Hobj l _ (Hstore l r Hl)). reflexivity.
    + intros i sid0 l Hi. destruct i as [|i].
      * simpl in Hi. injection Hi as -> ->.
        rewrite (Href l eq_refl) in *.
        apply Hacc. rewrite Nat.add_0_r.
        rewrite lookup_app_r by lia. rewrite Nat.sub_diag. reflexivity.
      * simpl in Hi. specialize (Hsec i sid0 l Hi).
        rewrite length_app in Hsec. simpl in Hsec.
        replace (length acc + S i)%nat with (length acc + 1 + i)%nat by lia.
        exact Hsec.
    + intros i x Hi. apply Hacc. apply lookup_app_l_Some. exact Hi.
Qed.

Lemma set_section_id_twice r a b :
  set_section_id (set_section_id r a) b = set_section_id r b.
Proof. reflexivity. Qed.

Lemma set_section_id_same r : set_section_id r (section_id r) = r.
Proof. destruct r; reflexivity. Qed.

(** Relabelling only ever changes [section_id]. *)
Lemma relabel_shape groups l r :
  exists sid, relabel groups l r = set_section_id r sid.
Proof.
  unfold relabel. revert r.
  induction groups as [|[sid members] groups IH]; intros r.
  - exists (section_id r). symmetry. apply set_section_id_same.
  - cbn [fold_left snd fst].
    destruct members as [|l' [|? ?]]; try apply IH.
    destruct (l' =? l)%nat; [|apply IH].
    destruct (IH (set_section_id r (Some sid))) as [sid' ->].
    exists sid'. apply set_section_id_twice.
Qed.

(** An object that is not the only member of a group is left alone. *)
Lemma relabel_untouched groups l r :
  Forall (fun g => snd g <> [l]) groups -> relabel groups l r = r.
Proof.
  unfold relabel. intros Hall. revert r.
  induction Hall as [|[sid members] groups Hg _ IH]; intros r; [reflexivity|].
  cbn [fold_left snd fst]. simpl in Hg.
  destruct members as [|l' [|? ?]]; try apply IH.
  destruct (l' =? l)%nat eqn:E; [|apply IH].
  apply Nat.eqb_eq in E as ->. congruence.
Qed.

(** When every one-member group of [l] carries the same id, that id is
    what [l] ends with. *)
Lemma relabel_single groups l sid r :
  Forall (fun g => snd g = [l] -> fst g = sid) groups ->
  (relabel groups l r = r \/ relabel groups l r = set_section_id r (Some sid))
  /\ (Exists (fun g => snd g = [l]) groups ->
      relabel groups l r = set_section_id r (Some sid))
  /\ relabel groups l (set_section_id r (Some sid))
     = set_section_id r (Some sid).
Proof.
  unfold relabel. intros Hall. revert r.
  induction Hall as [|[k members] groups Hg _ IH]; intros r.
  - split; [left; reflexivity|].
    split; [intros H; inversion H | reflexivity].
  - cbn [fold_left snd fst]. simpl in Hg.
    destruct (IH r) as (Hor & Hex & Hset).
    destruct members as [|l' [|l2 rest]].
    + split; [exact Hor|]. split; [|exact Hset].
      intros H. inversion H as [? ? Hh|? ? Ht]; subst;
        [discriminate Hh | exact (Hex Ht)].
    + destruct (l' =? l)%nat eqn:E.
      * apply Nat.eqb_eq in E as ->. rewrite (Hg eq_refl).
        rewrite set_section_id_twice.
        split; [right; exact Hset|]. split; [intros _; exact Hset|exact Hset].
      * apply Nat.eqb_neq in E.
        split; [exact Hor|]. split; [|exact Hset].
        intros H. inversion H as [? ? Hh|? ? Ht]; subst;
          [simpl in Hh; congruence | exact (Hex Ht)].
    + split; [exact Hor|]. split; [|exact Hset].
      intros H. inversion H as [? ? Hh|? ? Ht]; subst;
        [discriminate Hh | exact (Hex Ht)].
Qed.

Lemma keyed_single key groups l sid :
  keyed key groups -> key l = Some sid ->
  Forall (fun g => snd g = [l] -> fst g = sid) groups.
Proof.
  unfold keyed. intros Hk Hl.
  eapply Forall_impl; [exact Hk|].
  intros [k members] Hm Heq. simpl in *. subst members.
  inversion Hm as [|? ? Hkey _]; subst. congruence.
Qed.

(** C8.  A section group with exactly one chunk summary yields, at the
    same position, a section summary that is that very object: its text
    is the chunk summary's text, and its [section_id] is the group's. *)
Theorem single_chunk_section_reuses_summary summarizer self st' secs i sid l :
  _create_section_summaries summarizer self = Ok (st', secs) ->
  section_groups (chunks self) (store self) (chunk_summaries self) !! i
  = Some (sid, [l]) ->
  exists chunk_summary section_summary,
    store self !! l = Some chunk_summary
    /\ secs !! i = Some l
    /\ st' !! l = Some section_summary
    /\ section_summary = set_section_id chunk_summary (Some sid)
    /\ summary_text section_summary = summary_text chunk_summary.
Proof.
  intros Hrun Hgroup. unfold _create_section_summaries in Hrun.
  set (groups := section_groups (chunks self) (store self)
                   (chunk_summaries self)) in *.
  destruct (section_fold_spec summarizer groups _ _ _ _ Hrun)
    as (Hobj & Hsec & _).
  pose proof (section_groups_keyed (chunks self) (store self)
                (chunk_summaries self)) as Hkeyed.
  fold groups in Hkeyed.
  assert (Hin : (sid, [l]) ∈ groups)
    by (eapply list_elem_of_lookup_2; exact Hgroup).
  assert (Hkey : ref_key (chunks self) (store self) l = Some sid).
  { pose proof (proj1 (Forall_forall _ _) Hkeyed _ Hin) as Hmem.
    simpl in Hmem. inversion Hmem; subst. assumption. }
  assert (Hsome : exists r, store self !! l = Some r).
  { unfold ref_key in Hkey. destruct (store self !! l) as [r|]; [|discriminate].
    exists r. reflexivity. }
  destruct Hsome as [r Hr].
  exists r, (set_section_id r (Some sid)).
  split; [exact Hr|].
  split; [exact (Hsec i sid l Hgroup)|].
  split; [|split; reflexivity].
  rewrite (Hobj l r Hr). f_equal.
  apply (relabel_single groups l sid r
           (keyed_single _ groups l sid Hkeyed Hkey)).
  apply Exists_exists. exists (sid, [l]). split; [exact Hin | reflexivity].
Qed.

(** One chunk outside any section: its summary is the section summary. *)
Lemma single_chunk_section_reuses_summary_witness :
  exists st' secs chunk_summary section_summary,
    _create_section_summaries Samples.summarizer Samples.one_chunk_run
    = Ok (st', secs)
    /\ store Samples.one_chunk_run !! 0%nat = Some chunk_summary
    /\ secs !! 0%nat = Some 0%nat
    /\ st' !! 0%nat = Some section_summary
    /\ summary_text section_summary = summary_text chunk_summary.
Proof.
  destruct (_create_section_summaries Samples.summarizer Samples.one_chunk_run)
    as [[st' secs]|e] eqn:Hrun; [|vm_compute in Hrun; discriminate].
  destruct (single_chunk_section_reuses_summary
              Samples.summarizer Samples.one_chunk_run st' secs 0%nat
              (s "uncategorized") 0%nat Hrun)
    as (chunk_summary & section_summary & H1 & H2 & H3 & _ & H5);
    [vm_compute; reflexivity|].
  exists st', secs, chunk_summary, section_summary.
  repeat split; assumption.
Defined.

(** The object a chunk summary reference stands for is not the same after
    the section stage: its [section_id] was [None] and is now
    ["uncategorized"]. *)
Lemma section_stage_assigns_section_id :
  exists st' secs before after,
    _create_section_summaries Samples.summarizer Samples.one_chunk_run
    = Ok (st', secs)
    /\ store Samples.one_chunk_run !! 0%nat = Some before
    /\ st' !! 0%nat = Some after
    /\ section_id before = None
    /\ section_id after = Some (s "uncategorized")
    /\ before <> after.
Proof.
  eexists _, _, _, _.
  split; [vm_compute; reflexivity|].
  split; [vm_compute; reflexivity|].
  split; [vm_compute; reflexivity|].
  split; [reflexivity|]. split; [reflexivity|].
  intros E. apply (f_equal section_id) in E. discriminate E.
Qed.

(** What the later stages of a run leave behind. *)
Lemma compress_document_store name data config self :
  compress_document name data config = Ok self ->
  exists cs,
    chunk_document (chunker_config config) (pages data) = Ok cs
    /\ chunks self = cs
    /\ _create_section_summaries (Summarizer.mkSelf HYBRID None)
         (mkSelf data cs
            (summarize_chunks (Summarizer.mkSelf HYBRID None)
               (map to_dict cs) (s "chunk"))
            (seq 0 (length (summarize_chunks (Summarizer.mkSelf HYBRID None)
                              (map to_dict cs) (s "chunk"))))
            [] None None)
       = Ok (store self, section_summaries self).
Proof.
  unfold compress_document. intros Hrun.
  destruct (chunk_document (chunker_config config) (pages data))
    as [cs|e]; cbn [bind] in Hrun; [|discriminate].
  exists cs. split; [reflexivity|].
  destruct (_create_section_summaries _ _) as [[st secs]|e];
    cbn [bind] in Hrun; [|discriminate].
  destruct (_create_document_summary _ _) as [doc|e];
    cbn [bind] in Hrun; [|discriminate].
  destruct (_build_report _ _ _ _ _ _) as [rep|e];
    cbn [bind] in Hrun; [|discriminate].
  destruct (div _ _) as [ratio|e]; cbn [bind] in Hrun; [|discriminate].
  injection Hrun as <-. split; reflexivity.
Qed.

(** C9 (as the code behaves).  The section stage keeps every summary
    object it received and changes no field of it but [section_id]; an
    object that is not the only member of a section group is not changed
    at all.  After the section stage, the chunk list and the store of
    summary objects are final: the document stage and the report builder
    leave them as they are. *)
Theorem section_stage_frame :
  (forall summarizer self st' secs l r,
      _create_section_summaries summarizer self = Ok (st', secs) ->
      store self !! l = Some r ->
      (exists sid, st' !! l = Some (set_section_id r sid))
      /\ (Forall (fun g => snd g <> [l])
                 (section_groups (chunks self) (store self)
                    (chunk_summaries self)) ->
          st' !! l = Some r))
  /\ (forall name data config self,
         compress_document name data config = Ok self ->
         exists cs,
           chunk_document (chunker_config config) (pages data) = Ok cs
           /\ chunks self = cs
           /\ _create_section_summaries (Summarizer.mkSelf HYBRID None)
                (mkSelf data cs
                   (summarize_chunks (Summarizer.mkSelf HYBRID None)
                      (map to_dict cs) (s "chunk"))
                   (seq 0 (length (summarize_chunks
                                     (Summarizer.mkSelf HYBRID None)
                                     (map to_dict cs) (s "chunk"))))
                   [] None None)
              = Ok (store self, section_summaries self)).
Proof.
  split; [|exact compress_document_store].
  intros summarizer self st' secs l r Hrun Hl.
  unfold _create_section_summaries in Hrun.
  destruct (section_fold_spec summarizer _ _ _ _ _ Hrun) as (Hobj & _ & _).
  rewrite (Hobj l r Hl). split.
  - destruct (relabel_shape
                (section_groups (chunks self) (store self)
                   (chunk_summaries self)) l r) as [sid ->].
    exists sid. reflexivity.
  - intros Hnone. rewrite relabel_untouched by exact Hnone. reflexivity.
Qed.

(** In the one-chunk run, the summary keeps every field but
    [section_id]. *)
Lemma section_stage_frame_witness :
  exists st' secs r sid,
    _create_section_summaries Samples.summarizer Samples.one_chunk_run
    = Ok (st', secs)
    /\ store Samples.one_chunk_run !! 0%nat = Some r
    /\ st' !! 0%nat = Some (set_section_id r sid).
Proof.
  destruct (_create_section_summaries Samples.summarizer Samples.one_chunk_run)
    as [[st' secs]|e] eqn:Hrun; [|vm_compute in Hrun; discriminate].
  destruct (store Samples.one_chunk_run !! 0%nat) as [r|] eqn:Hr;
    [|vm_compute in Hr; discriminate].
  destruct (proj1 section_stage_frame Samples.summarizer
              Samples.one_chunk_run st' secs 0%nat r Hrun Hr)
    as [[sid Hsid] _].
  exists st', secs, r, sid. repeat split; assumption.
Defined.

End SectionAggregation.

(** ** What is left in the buffer at the end of a page *)

Module PageResidual.
Import Py Chunker Invariants.

Lemma page_start_erased st page :
  page_start (erase_buffer st) page = page_start st page.
Proof. reflexivity. Qed.

Lemma residual_not_flushable st :
  (Py.word_count (buffer st) < 30)%nat -> flushable st = false.
Proof.
  intros H. unfold flushable.
  destruct (30 <=? Py.word_count (buffer st))%nat eqn:E.
  - apply Nat.leb_le in E. lia.
  - apply andb_false_r.
Qed.


(** Chunks are only ever appended. *)
Lemma emit_prefix st level h : chunks st `prefix_of` chunks (emit st level h).
Proof. unfold emit. cbn [chunks]. apply prefix_app_r. reflexivity. Qed.

Lemma para_step_prefix cfg txt st para :
  chunks st `prefix_of` chunks (para_step cfg txt st para).
Proof.
  unfold para_step.
  destruct (negb (nonempty (strip para))); [reflexivity|].
  destruct (_classify_header (strip para)) as [header_level section_id].
  set (st1 := match section_id with
              | Some sid => _
              | None => st
              end).
  assert (H1 : chunks st1 = chunks st).
  { unfold st1. destruct section_id as [sid|]; [|reflexivity].
    destruct (_ && _); reflexivity. }
  rewrite <- H1. clearbody st1.
  destruct (0 <? header_level).
  - set (st2 := if _ && _ then emit st1 _ false else st1).
    assert (H2 : chunks st1 `prefix_of` chunks st2).
    { unfold st2. destruct (_ && _); [apply emit_prefix | reflexivity]. }
    destruct (20 <? Py.word_count (strip para))%nat;
      cbn [chunks set_buffer set_level emit];
      [etrans; [exact H2 | apply prefix_app_r; reflexivity] | exact H2].
  - destruct (_ && _ && _).
    + destruct (nonempty _); cbn [chunks set_buffer emit];
        apply prefix_app_r; reflexivity.
    + destruct (_ || _); reflexivity.
Qed.

Lemma fold_prefix {A} (f : state -> A -> state) l :
  (forall st x, chunks st `prefix_of` chunks (f st x)) ->
  forall st, chunks st `prefix_of` chunks (fold_left f l st).
Proof.
  intros Hf. induction l as [|x l IH]; intros st; [reflexivity|].
  simpl. etrans; [apply Hf | apply IH].
Qed.

Lemma page_step_prefix cfg st page :
  chunks st `prefix_of` chunks (page_step cfg st page).
Proof.
  unfold page_step, page_end, page_loop.
  set (st1 := fold_left _ _ _).
  assert (H1 : chunks st `prefix_of` chunks st1).
  { unfold st1. change (chunks st) with (chunks (page_start st page)).
    apply fold_prefix. intros; apply para_step_prefix. }
  destruct (flushable st1); cbn [chunks set_buffer emit]; [|exact H1].
  etrans; [exact H1 | apply prefix_app_r; reflexivity].
Qed.

Lemma final_flush_prefix st : chunks st `prefix_of` chunks (final_flush st).
Proof.
  unfold final_flush. destruct (flushable st); [apply emit_prefix|reflexivity].
Qed.

(** C10.  When the paragraphs of a page leave fewer than 30 words in the
    buffer, the end of the page emits no chunk for them, and the rest of
    the run is the one that starts from an erased buffer: the pages that
    follow start from it, and the flush after the last page emits
    nothing.  The chunks emitted before the end of the page begin the
    final list; the residual text is dropped. *)
Theorem page_residual_discarded cfg st page rest :
  (Py.word_count (buffer (page_loop cfg st page)) < 30)%nat ->
  chunks (page_end (page_loop cfg st page) page)
  = chunks (page_loop cfg st page)
  /\ chunks (final_flush
               (fold_left (page_step cfg) rest
                  (page_end (page_loop cfg st page) page)))
     = chunks (final_flush
                 (fold_left (page_step cfg) rest
                    (erase_buffer (page_end (page_loop cfg st page) page))))
  /\ chunks (page_loop cfg st page)
     `prefix_of`
     chunks (final_flush
               (fold_left (page_step cfg) rest
                  (page_end (page_loop cfg st page) page))).
Proof.
  intros Hshort.
  set (st1 := page_loop cfg st page) in *.
  assert (Hend : page_end st1 page
                 = mkState (chunks st1) (next_id st1) (current_section st1)
                     (global_char_offset st1
                      + Z.of_nat (length (page_text page)) + 1)
                     (buffer st1) (buffer_start st1)
                     (current_header_level st1) (page_num st1)).
  { unfold page_end. rewrite (residual_not_flushable st1 Hshort).
    reflexivity. }
  split; [rewrite Hend; reflexivity|].
  split;
    [|etrans; [|apply final_flush_prefix];
      etrans; [|apply fold_prefix; intros; apply page_step_prefix];
      rewrite Hend; reflexivity].
  destruct rest as [|next rest].
  - cbn [fold_left]. unfold final_flush.
    rewrite Hend.
    assert (Hf : flushable
                   (mkState (chunks st1) (next_id st1) (current_section st1)
                      (global_char_offset st1
                       + Z.of_nat (length (page_text page)) + 1)
                      (buffer st1) (buffer_start st1)
                      (current_header_level st1) (page_num st1)) = false)
      by (apply residual_not_flushable; exact Hshort).
    rewrite Hf. reflexivity.
  - cbn [fold_left]. unfold page_step at 2 4, page_loop.
    rewrite page_start_erased. reflexivity.
Qed.

(** Two pages of 29 words each: no chunk at all, although the document has
    58 words. *)
Lemma page_residual_discarded_witness :
  (Py.word_count
     (buffer (page_loop (mkConfig 75 300 20) initial_state
                (Samples.short_page 1))) = 29)%nat
  /\ chunks (page_end (page_loop (mkConfig 75 300 20) initial_state
                         (Samples.short_page 1))
               (Samples.short_page 1)) = []
  /\ chunk_document (mkConfig 75 300 20)
       [Samples.short_page 1; Samples.short_page 2] = Ok [].
Proof.
  assert (Hwords :
            (Py.word_count
               (buffer (page_loop (mkConfig 75 300 20) initial_state
                          (Samples.short_page 1))) = 29)%nat)
    by (vm_compute; reflexivity).
  destruct (page_residual_discarded (mkConfig 75 300 20) initial_state
              (Samples.short_page 1) [Samples.short_page 2])
    as (Hend & Hrest & _); [rewrite Hwords; lia|].
  split; [exact Hwords|].
  split; [rewrite Hend; vm_compute; reflexivity|].
  unfold chunk_document.
  change (fold_left (page_step (mkConfig 75 300 20))
            [Samples.short_page 1; Samples.short_page 2] initial_state)
    with (fold_left (page_step (mkConfig 75 300 20)) [Samples.short_page 2]
            (page_end (page_loop (mkConfig 75 300 20) initial_state
                         (Samples.short_page 1))
               (Samples.short_page 1))).
  rewrite Hrest. vm_compute. reflexivity.
Defined.

End PageResidual.

(** ** Scenarios of the specification, run on the model *)

Module Scenarios.
Import Py Compressor.

(** A paragraph of 25 words with "RISK: must maintain minimum 30 days" is
    a critical chunk that contains a risk and a number. *)
Example risk_paragraph_is_critical :
  let c := _create_chunk 0 Samples.risk_paragraph 1 None 0 0 in
  Chunker.word_count c = 25
  /\ chunk_type c = CRITICAL
  /\ contains_risks c = true
  /\ contains_numbers c = true.
Proof. vm_compute. repeat split. Qed.

(** Combined section text of 280 words under a budget of 300 is the
    document summary, unchanged. *)
Example under_budget_text_is_kept :
  exists doc,
    _create_document_summary [Samples.words_280] 300 = Ok doc
    /\ doc_summary_text doc = summary_text Samples.words_280
    /\ doc_summary_words doc = 280
    /\ compression_note (doc_explainability doc) = NoSummarization 300.
Proof. eexists. split; [vm_compute; reflexivity|]. repeat split. Qed.

(** Without any page the chunker reads its buffer before assigning it. *)
Example no_page_raises :
  chunk_document (chunker_config default_config) [] = Raise UnboundLocalError.
Proof. reflexivity. Qed.

End Scenarios.
